(** * SIM order form: the order state and derivation engine of [src/index.tsx]

    A shallow embedding of the logic of the [App] component: the plan
    catalogue, the plan-consistency effect, the price, the UPI link and QR
    request URL, the auto-fill merge, the send-time check and the WhatsApp
    message.

    Conventions of the embedding.
    - A JavaScript string is a [string] of bytes holding its UTF-8 encoding
      (the emoji and the rupee sign of the message are multi-byte).
    - The fields of [formData] are strings, their declared TypeScript type;
      the parsed auto-fill reply is a finite map from property names to
      strings (every property of [extractionSchema] is a [Type.STRING]); an
      absent property is a failed lookup.
    - Property lookup in [PLANS] is own-property lookup: it is the lookup
      of the source for every name but the ones all objects inherit
      ([JS.inherited]); the statements that range over arbitrary names
      exclude those ([ownLookup]).
    - A JavaScript number is an integer in [Z]. The source reads, adds and
      prints doubles, which agree with the integers on the safe range
      ([JS.safe], up to 2^53 - 1 either way); the statements that range
      over arbitrary amounts stay within it ([pricedExactly]).
    - React state is passed explicitly; [alert], [console.error] and
      [window.open] are recorded as a list of effects. *)

From stdpp Require Import gmap strings list fin_maps.
From Stdlib Require Import ZArith Ascii DecimalString DecimalPos DecimalFacts.

Local Open Scope string_scope.
Local Open Scope Z_scope.

(** ** JavaScript primitives used by the component *)

Module JS.

Definition code (c : ascii) : Z := Z.of_N (N_of_ascii c).

(** [a || b] on an optional string: [undefined] and [''] are falsy. *)
Definition or_else (a : option string) (b : string) : string :=
  match a with
  | Some s => if decide (s = "") then b else s
  | None => b
  end.

(** [!s] on a string. *)
Definition falsy (s : string) : bool := bool_decide (s = "").

(** [n || d] on the result of [parseInt]: [NaN] (here [None]) and [0] are
    falsy. *)
Definition num_or (n : option Z) (d : Z) : Z :=
  match n with
  | Some z => if z =? 0 then d else z
  | None => d
  end.

(** One-byte members of WhiteSpace and LineTerminator: TAB, LF, VT, FF, CR
    and SP. *)
Definition ws1 (c : ascii) : bool :=
  let n := code c in ((9 <=? n) && (n <=? 13)) || (n =? 32).

(** U+00A0, encoded C2 A0. *)
Definition ws2 (c d : ascii) : bool := (code c =? 194) && (code d =? 160).

(** The three-byte members: U+1680; U+2000..U+200A, U+2028, U+2029 and
    U+202F; U+205F; U+3000; U+FEFF. *)
Definition ws3 (c d e : ascii) : bool :=
  let x := code c in let y := code d in let z := code e in
  ((x =? 225) && (y =? 154) && (z =? 128))
  || ((x =? 226) && (y =? 128)
      && (((128 <=? z) && (z <=? 138)) || (z =? 168) || (z =? 169) || (z =? 175)))
  || ((x =? 226) && (y =? 129) && (z =? 159))
  || ((x =? 227) && (y =? 128) && (z =? 128))
  || ((x =? 239) && (y =? 187) && (z =? 191)).

(** [s.trimStart()]: drop the leading white space. *)
Fixpoint trimStart (s : string) : string :=
  match s with
  | String c r1 =>
      if ws1 c then trimStart r1
      else match r1 with
           | String d r2 =>
               if ws2 c d then trimStart r2
               else match r2 with
                    | String e r3 => if ws3 c d e then trimStart r3 else s
                    | EmptyString => s
                    end
           | EmptyString => s
           end
  | EmptyString => s
  end.

(** [!s.trim()]: nothing is left once the white space is trimmed, which is
    decided by the leading trim alone. *)
Definition blank (s : string) : bool := bool_decide (trimStart s = "").

(** The value of a digit in the given radix, if it is one. *)
Definition digit_value (radix : Z) (c : ascii) : option Z :=
  let n := code c in
  let v := if (48 <=? n) && (n <=? 57) then Some (n - 48)
           else if (97 <=? n) && (n <=? 122) then Some (n - 87)
           else if (65 <=? n) && (n <=? 90) then Some (n - 55)
           else None in
  match v with
  | Some d => if d <? radix then Some d else None
  | None => None
  end.

(** The longest prefix of digits, read in the radix; [acc] is [None] until
    a digit has been read. *)
Fixpoint read_digits (radix : Z) (s : string) (acc : option Z) : option Z :=
  match s with
  | String c r =>
      match digit_value radix c with
      | Some d => read_digits radix r (Some (default 0 acc * radix + d))
      | None => acc
      end
  | EmptyString => acc
  end.

(** [parseInt(s)] with no radix argument: leading white space, an optional
    sign, an optional [0x] or [0X] prefix, then the longest run of digits;
    [None] stands for [NaN]. The result is the integer the digits denote:
    the source's result whenever that integer is [safe], beyond which the
    source rounds to a double. *)
Definition parseInt (s : string) : option Z :=
  let s0 := trimStart s in
  let '(sign, s1) :=
    match s0 with
    | String "-" r => (-1, r)
    | String "+" r => (1, r)
    | _ => (1, s0)
    end in
  let '(radix, s2) :=
    match s1 with
    | String "0" (String "x" r) => (16, r)
    | String "0" (String "X" r) => (16, r)
    | _ => (10, s1)
    end in
  match read_digits radix s2 None with
  | Some m => Some (sign * m)
  | None => None
  end.

(** [`${n}`] for an integer: its decimal digits, which is what the source
    prints for every [safe] integer (it turns to exponent notation from
    1e21 on). *)
Definition toString (n : Z) : string := NilZero.string_of_int (Z.to_int n).

(** The characters [encodeURIComponent] leaves alone: letters, digits and
    [- _ . ! ~ * ' ( )]. *)
Definition unreserved (c : ascii) : bool :=
  let n := code c in
  ((48 <=? n) && (n <=? 57)) || ((65 <=? n) && (n <=? 90))
  || ((97 <=? n) && (n <=? 122))
  || (n =? 45) || (n =? 95) || (n =? 46) || (n =? 33) || (n =? 126)
  || (n =? 42) || (n =? 39) || (n =? 40) || (n =? 41).

Definition hex_digit (n : Z) : ascii :=
  ascii_of_N (Z.to_N (if n <? 10 then 48 + n else 55 + n)).

Definition escape (c : ascii) : string :=
  String "%" (String (hex_digit (code c / 16))
                (String (hex_digit (code c mod 16)) EmptyString)).

(** [encodeURIComponent(s)], byte by byte on the UTF-8 encoding. *)
Fixpoint encodeURIComponent (s : string) : string :=
  match s with
  | String c r =>
      (if unreserved c then String c EmptyString else escape c)
      +:+ encodeURIComponent r
  | EmptyString => EmptyString
  end.

(** [Number.MAX_SAFE_INTEGER]. Between its negation and itself the
    integers are doubles, [parseInt] and [+] are exact and a template
    literal prints plain decimal digits. *)
Definition MAX_SAFE_INTEGER : Z := 2 ^ 53 - 1.

(** [Number.isSafeInteger(n)] for an integer. *)
Definition safe (n : Z) : Prop := - MAX_SAFE_INTEGER ≤ n ≤ MAX_SAFE_INTEGER.

(** The names every object literal inherits from [Object.prototype]: looked
    up in [PLANS] or in one of its entries they answer a function or an
    object, not [undefined]. *)
Definition inherited : list string :=
  ["constructor"; "hasOwnProperty"; "isPrototypeOf"; "propertyIsEnumerable";
   "toLocaleString"; "toString"; "valueOf"; "__proto__";
   "__defineGetter__"; "__defineSetter__"; "__lookupGetter__";
   "__lookupSetter__"].

End JS.

(** ** Configuration *)

Definition WHATSAPP_NUMBER : string := "919360626529".
Definition DELIVERY_CHARGE : Z := 50.
Definition MERCHANT_UPI : string := "sakthi000505@okhdfcbank".
Definition MERCHANT_NAME : string := "SAKTHI".

Definition PLANS : gmap string (gmap string (list string)) :=
  {[ "NEW" := {[ "AIRTEL" := ["249"; "349"];
                 "JIO" := ["349"];
                 "VI" := ["199"; "299"] ]};
     "MNP" := {[ "AIRTEL" := ["199"; "349"];
                 "JIO" := ["349"];
                 "VI" := ["199"; "299"] ]};
     "REPLACEMENT" := {[ "AIRTEL" := ["200"];
                         "VI" := ["200"] ]} ]}.

(** The prices that occur in the catalogue. *)
Definition listedPrices : list string := ["249"; "349"; "199"; "299"; "200"].

(** ** Component state *)

(** The object held by [useState] as [formData]. *)
Record FormData := mkFormData {
  name : string;
  mobile : string;
  type : string;
  network : string;
  plan : string;
  address : string;
  locationLink : string;
  paymentMethod : string;
  transactionId : string
}.

(** The initial value passed to [useState]. *)
Definition initialFormData : FormData :=
  {| name := ""; mobile := ""; type := "NEW"; network := "AIRTEL"; plan := "";
     address := ""; locationLink := ""; paymentMethod := "Cash on Delivery";
     transactionId := "" |}.

(** [{ ...prev, plan: p }] *)
Definition with_plan (p : string) (prev : FormData) : FormData :=
  {| name := name prev; mobile := mobile prev; type := type prev;
     network := network prev; plan := p; address := address prev;
     locationLink := locationLink prev; paymentMethod := paymentMethod prev;
     transactionId := transactionId prev |}.

(** The state of [App]: the form and the UI state. *)
Record AppState := mkAppState {
  formData : FormData;
  rawInput : string;
  isAiLoading : bool
}.

Definition with_formData (f : FormData) (st : AppState) : AppState :=
  {| formData := f; rawInput := rawInput st; isAiLoading := isAiLoading st |}.

Definition with_isAiLoading (b : bool) (st : AppState) : AppState :=
  {| formData := formData st; rawInput := rawInput st; isAiLoading := b |}.

(** What a handler does to the world outside the component. *)
Inductive effect :=
| console_error
| alert (message : string)
| window_open (url : string).

(** ** Plans *)

(** [PLANS[formData.type]?.[formData.network] || []], for a request type
    and a network that are not [JS.inherited] names. *)
Definition getAvailablePlans (f : FormData) : list string :=
  default [] (PLANS !! type f ≫= (.!! network f)).

(** [availablePlans.includes(p)] *)
Definition includes (p : string) (l : list string) : bool :=
  bool_decide (p ∈ l).

(** The body of the [useEffect] that keeps the plan valid. *)
Definition planEffect (f : FormData) : FormData :=
  let availablePlans := getAvailablePlans f in
  if (0 <? length availablePlans)%nat && negb (includes (plan f) availablePlans)
  then with_plan (default "" (head availablePlans)) f
  else if (length availablePlans =? 0)%nat
  then with_plan "" f
  else f.

(** The render after a state change from [old] to [new]: the effect has the
    dependencies [[formData.type, formData.network]] and runs only when one
    of them changed. Its own update touches the plan alone, so one run
    settles the form. *)
Definition rerender (old new : FormData) : FormData :=
  if bool_decide (type old = type new ∧ network old = network new)
  then new
  else planEffect new.

(** The first render runs the effect once. *)
Definition mount : FormData := planEffect initialFormData.

(** [handleChange(field, value)]: [{ ...prev, [field]: value }] for the
    fields the form binds. *)
Definition handleChange (field value : string) (prev : FormData) : FormData :=
  {| name := if decide (field = "name") then value else name prev;
     mobile := if decide (field = "mobile") then value else mobile prev;
     type := if decide (field = "type") then value else type prev;
     network := if decide (field = "network") then value else network prev;
     plan := if decide (field = "plan") then value else plan prev;
     address := if decide (field = "address") then value else address prev;
     locationLink :=
       if decide (field = "locationLink") then value else locationLink prev;
     paymentMethod :=
       if decide (field = "paymentMethod") then value else paymentMethod prev;
     transactionId :=
       if decide (field = "transactionId") then value else transactionId prev |}.

(** ** Price and payment *)

(** The sum is the source's whenever the number read and the sum are
    [JS.safe]. *)
Definition getTotalPrice (f : FormData) : Z :=
  let planPrice := JS.num_or (JS.parseInt (plan f)) 0 in
  planPrice + DELIVERY_CHARGE.

(** The template literal bound to [upiLink]. *)
Definition upiLink (amount : Z) : string :=
  "upi://pay?pa=" +:+ MERCHANT_UPI +:+ "&pn=" +:+ JS.encodeURIComponent MERCHANT_NAME
  +:+ "&am=" +:+ JS.toString amount +:+ "&cu=INR".

Definition getQrCodeUrl (f : FormData) : string :=
  let amount := getTotalPrice f in
  if amount <=? 0 then ""
  else "https://api.qrserver.com/v1/create-qr-code/?size=200x200&data="
       +:+ JS.encodeURIComponent (upiLink amount).

(** ** Auto-fill *)

(** The updater passed to [setFormData] in [handleAiAutoFill]; [extracted]
    is the object returned by [JSON.parse]. *)
Definition autoFill (extracted : gmap string string) (prev : FormData) : FormData :=
  {| name := JS.or_else (extracted !! "customerName") (name prev);
     mobile := JS.or_else (extracted !! "mobileNumber") (mobile prev);
     type := JS.or_else (extracted !! "requestType") (type prev);
     network := JS.or_else (extracted !! "network") (network prev);
     plan := JS.or_else (extracted !! "planAmount") (plan prev);
     address := JS.or_else (extracted !! "address") (address prev);
     locationLink := locationLink prev;
     paymentMethod := JS.or_else (extracted !! "paymentMethod") (paymentMethod prev);
     transactionId := JS.or_else (extracted !! "transactionId") (transactionId prev) |}.

(** What the awaited call and the parse of its text can come to. A parsed
    array, number, string or boolean has none of the eight properties and
    behaves as the empty object. The text [null] is left out of the model:
    the updater, which React runs while rendering, would throw on it. *)
Inductive extraction :=
| CallThrows                (* [generateContent] rejects *)
| TextMissing               (* [response.text] is [undefined] or [''] *)
| ParseThrows               (* [JSON.parse(text)] throws *)
| Parsed (extracted : gmap string string).

Definition autoFillAlert : string :=
  "Could not auto-fill details. Please try again or fill manually.".

(** [handleAiAutoFill], given how the call turns out. The [finally] block
    clears the loading flag on every path past the first guard. *)
Definition handleAiAutoFill (x : extraction) (st : AppState)
  : AppState * list effect :=
  if JS.blank (rawInput st) then (st, [])
  else
    let st := with_isAiLoading true st in
    let '(st, effects) :=
      match x with
      | Parsed extracted =>
          (with_formData (autoFill extracted (formData st)) st, [])
      | TextMissing => (st, [])
      | CallThrows | ParseThrows =>
          (st, [console_error; alert autoFillAlert])
      end in
    (with_isAiLoading false st, effects).

(** The form once React has rendered the outcome of an auto-fill. *)
Definition afterAutoFill (x : extraction) (st : AppState) : FormData :=
  rerender (formData st) (formData (handleAiAutoFill x st).1).

(** ** Sending *)

Definition requiredAlert : string := "Please fill all required fields (*)".

(** The line feed written [\n] in the source. *)
Definition nl : string := String "010"%char EmptyString.

(** The text built in [msg] by [handleSend], one [+=] after the other. *)
Definition orderMessage (f : FormData) : string :=
  let total := getTotalPrice f in
  let msg := "📩 *SIM ORDER*" +:+ nl +:+ nl in
  let msg := msg +:+ ("🧑 *Name:* " +:+ name f +:+ nl) in
  let msg := msg +:+ ("📞 *Mobile:* " +:+ mobile f +:+ nl +:+ nl) in
  let msg := msg +:+ ("📌 *Type:* " +:+ type f +:+ nl) in
  let msg := msg +:+ ("📶 *Network:* " +:+ network f +:+ nl) in
  let msg := msg +:+ ("💰 *Plan:* ₹" +:+ plan f +:+ nl) in
  let msg := msg +:+ ("🚚 *Delivery:* ₹" +:+ JS.toString DELIVERY_CHARGE +:+ nl) in
  let msg := msg +:+ ("💵 *Total:* ₹" +:+ JS.toString total +:+ nl) in
  let msg := msg +:+ ("💳 *Payment:* " +:+ paymentMethod f +:+ nl) in
  let msg :=
    if bool_decide (paymentMethod f = "UPI") && negb (JS.falsy (transactionId f))
    then msg +:+ ("🆔 *Txn ID:* " +:+ transactionId f +:+ nl)
    else msg in
  let msg := msg +:+ (nl +:+ "🏠 *Address:* " +:+ address f +:+ nl) in
  let msg :=
    if negb (JS.falsy (locationLink f))
    then msg +:+ (nl +:+ "📍 *Location:* " +:+ locationLink f +:+ nl)
    else msg in
  msg.

(** [handleSend]: the required-field guard, then the WhatsApp link. *)
Definition handleSend (f : FormData) : list effect :=
  if JS.falsy (name f) || JS.falsy (mobile f) || JS.falsy (address f)
     || JS.falsy (plan f)
  then [alert requiredAlert]
  else
    let url := "https://wa.me/" +:+ WHATSAPP_NUMBER +:+ "?text="
               +:+ JS.encodeURIComponent (orderMessage f) in
    [window_open url].

(** ** Vocabulary for stating the properties *)

(** The properties read off the parsed reply, each with the form field it
    fills. *)
Definition extractedFields : list (string * (FormData → string)) :=
  [("customerName", name); ("mobileNumber", mobile); ("requestType", type);
   ("network", network); ("planAmount", plan); ("address", address);
   ("paymentMethod", paymentMethod); ("transactionId", transactionId)].

(** The [enum] lists of [extractionSchema], each with its property and the
    form field the property fills. *)
Definition enumFields : list (string * (FormData → string) * list string) :=
  [("requestType", type, ["NEW"; "MNP"; "REPLACEMENT"]);
   ("network", network, ["AIRTEL"; "JIO"; "VI"]);
   ("paymentMethod", paymentMethod, ["UPI"; "Card"; "Cash on Delivery"])].

(** The outcomes in which no reply object reaches the merge. *)
Definition failed (x : extraction) : bool :=
  match x with
  | Parsed _ => false
  | _ => true
  end.

(** The failures that arrive in the [catch] block. *)
Definition thrown (x : extraction) : bool :=
  match x with
  | CallThrows | ParseThrows => true
  | TextMissing | Parsed _ => false
  end.

(** A text made of the given lines, each closed by a line feed. *)
Definition unlines (lines : list string) : string :=
  foldr (λ line rest, line +:+ nl +:+ rest) "" lines.

(** Whether the byte [c] occurs in [s]. *)
Fixpoint occurs (c : ascii) (s : string) : bool :=
  match s with
  | String d r => Ascii.eqb d c || occurs c r
  | EmptyString => false
  end.

(** [s] cut at the first [sep]: what is before it and what is after it. *)
Fixpoint cut (sep : ascii) (s : string) : string * string :=
  match s with
  | String c r =>
      if Ascii.eqb c sep then (EmptyString, r)
      else let '(before, after) := cut sep r in (String c before, after)
  | EmptyString => (EmptyString, EmptyString)
  end.

(** The pieces of [s] between the occurrences of [sep]. *)
Fixpoint split_on (sep : ascii) (s : string) : list string :=
  match s with
  | String c r =>
      if Ascii.eqb c sep then EmptyString :: split_on sep r
      else match split_on sep r with
           | piece :: pieces => String c piece :: pieces
           | [] => [String c EmptyString]
           end
  | EmptyString => [EmptyString]
  end.

(** The query of a URI as its reader takes it apart: what follows the
    first [?], split at each [&], each piece cut at its first [=]. *)
Definition query_params (uri : string) : list (string * string) :=
  map (cut "=") (split_on "&" (cut "?" uri).2).

(** The state used in the examples: the mounted form and a pasted request. *)
Definition pasted : AppState :=
  {| formData := mount; rawInput := "John needs a sim"; isAiLoading := false |}.

(** An order ready to send: new Jio connection paid by UPI, no location. *)
Definition jioOrder : FormData :=
  mkFormData "Asha" "9876543210" "NEW" "JIO" "349" "12 Main Road" ""
    "UPI" "UTR123456789".

(** ** The rest of the component *)

(** [{ ...prev, locationLink: link }] *)
Definition with_locationLink (link : string) (prev : FormData) : FormData :=
  {| name := name prev; mobile := mobile prev; type := type prev;
     network := network prev; plan := plan prev; address := address prev;
     locationLink := link; paymentMethod := paymentMethod prev;
     transactionId := transactionId prev |}.

(** What the browser answers to [handleGetLocation]. The coordinates are
    doubles; the model carries each as the text the template literal
    renders for it. *)
Inductive geolocation :=
| GeoUnsupported                                (* no [navigator.geolocation] *)
| GeoPosition (latitude longitude : string)     (* the success callback *)
| GeoError.                                     (* the error callback *)

Definition unsupportedAlert : string :=
  "Geolocation is not supported by your browser".

Definition locationAlert : string :=
  "Unable to retrieve your location. Please allow location access.".

(** [handleGetLocation] on the form and [locationStatus], up to the end of
    the callback (three seconds after a success a timer blanks the status
    again). *)
Definition handleGetLocation (g : geolocation) (f : FormData)
    (locationStatus : string) : FormData * string * list effect :=
  match g with
  | GeoUnsupported => (f, locationStatus, [alert unsupportedAlert])
  | GeoPosition latitude longitude =>
      let locationStatus := "Fetching location..." in
      let link := "https://www.google.com/maps?q=" +:+ latitude +:+ ","
                  +:+ longitude in
      let f := with_locationLink link f in
      let locationStatus := "Location added!" in
      (f, locationStatus, [])
  | GeoError =>
      let locationStatus := "Fetching location..." in
      let locationStatus := "" in
      (f, locationStatus, [alert locationAlert])
  end.

(** The [<option>] values of the three fixed selects. *)
Definition typeOptions : list string := ["NEW"; "MNP"; "REPLACEMENT"].
Definition networkOptions : list string := ["AIRTEL"; "JIO"; "VI"].
Definition paymentOptions : list string := ["Cash on Delivery"; "UPI"; "Card"].

(** The [<option>] values of the plan select: the available plans, or the
    single empty value when there is none. *)
Definition planOptions (f : FormData) : list string :=
  if (length (getAvailablePlans f) =? 0)%nat then [""]
  else getAvailablePlans f.

(** The [onChange] events the rendered form can raise: a select passes one
    of its option values, a text input any text. *)
Definition offered (f : FormData) (field value : string) : bool :=
  if decide (field = "type") then bool_decide (value ∈ typeOptions)
  else if decide (field = "network") then bool_decide (value ∈ networkOptions)
  else if decide (field = "plan") then bool_decide (value ∈ planOptions f)
  else if decide (field = "paymentMethod")
       then bool_decide (value ∈ paymentOptions)
  else bool_decide
         (field ∈ ["name"; "mobile"; "address"; "locationLink"; "transactionId"]).

(** One [onChange] and the render that follows it. *)
Definition edit (field value : string) (f : FormData) : FormData :=
  rerender f (handleChange field value f).

(** The forms that editing by hand and locating can bring about. *)
Inductive reachable : FormData → Prop :=
| reach_mount : reachable mount
| reach_edit f field value :
    reachable f → offered f field value = true → reachable (edit field value f)
| reach_locate f latitude longitude status :
    reachable f →
    reachable
      (rerender f (handleGetLocation (GeoPosition latitude longitude) f status).1.1).

(** The catalogue invariant: the plan is one of the available plans, or
    empty when there is none. *)
Definition planConsistent (f : FormData) : Prop :=
  plan f ∈ getAvailablePlans f ∨ getAvailablePlans f = [] ∧ plan f = "".

(** What hand editing maintains: the catalogue invariant and the values of
    the three fixed selects. *)
Definition handEdited (f : FormData) : Prop :=
  planConsistent f
  ∧ type f ∈ typeOptions
  ∧ network f ∈ networkOptions
  ∧ paymentMethod f ∈ paymentOptions.

(** The forms whose request type and network are looked up in [PLANS] as
    the source does. *)
Definition ownLookup (f : FormData) : Prop :=
  (type f ∉ JS.inherited) ∧ (network f ∉ JS.inherited).

(** The forms whose price is computed as the source does: the number read
    from the plan and the total are safe integers. *)
Definition pricedExactly (f : FormData) : Prop :=
  JS.safe (default 0 (JS.parseInt (plan f))) ∧ JS.safe (getTotalPrice f).

(** The pairs of request type and network that [PLANS] populates. *)
Definition populated : list (string * string) :=
  [("NEW", "AIRTEL"); ("NEW", "JIO"); ("NEW", "VI");
   ("MNP", "AIRTEL"); ("MNP", "JIO"); ("MNP", "VI");
   ("REPLACEMENT", "AIRTEL"); ("REPLACEMENT", "VI")].

(** Whether every byte of [s] satisfies [P]. *)
Fixpoint all_chars (P : ascii → bool) (s : string) : bool :=
  match s with
  | String c r => P c && all_chars P r
  | EmptyString => true
  end.

(** Whether reading a number stops at the start of [rest]: [rest] is empty,
    or begins with a byte that is neither a decimal digit nor the [x] of a
    hexadecimal prefix. *)
Definition stops (rest : string) : bool :=
  match rest with
  | String c _ =>
      negb (bool_decide (is_Some (JS.digit_value 10 c)))
      && negb (Ascii.eqb c "x") && negb (Ascii.eqb c "X")
  | EmptyString => true
  end.

(** The reader's side of [encodeURIComponent]: each [%] followed by two
    hexadecimal digits stands for one byte. *)
Fixpoint percent_decode (s : string) : string :=
  match s with
  | String c t =>
      match t with
      | String h (String l r) =>
          match Ascii.eqb c "%", JS.digit_value 16 h, JS.digit_value 16 l with
          | true, Some a, Some b =>
              String (ascii_of_N (Z.to_N (16 * a + b))) (percent_decode r)
          | _, _, _ => String c (percent_decode t)
          end
      | _ => String c (percent_decode t)
      end
  | EmptyString => EmptyString
  end.

(** * Properties *)

(** ** Numbers and their decimal text *)

Section decimal.

Local Abbreviation text := NilEmpty.string_of_uint.

(** The bytes below 128, one-byte white space apart, start no white
    space. *)
Lemma trimStart_keeps (c : ascii) (r : string) :
  JS.ws1 c = false → JS.code c < 128 → JS.trimStart (String c r) = String c r.
Proof.
  intros Hws Hc. cbn [JS.trimStart]. rewrite Hws.
  assert (JS.ws2 c = λ _, false) as ->.
  { unfold JS.ws2. destruct (Z.eqb_spec (JS.code c) 194); [lia | done]. }
  assert (JS.ws3 c = λ _ _, false) as ->.
  { unfold JS.ws3.
    destruct (Z.eqb_spec (JS.code c) 225); [lia|].
    destruct (Z.eqb_spec (JS.code c) 226); [lia|].
    destruct (Z.eqb_spec (JS.code c) 227); [lia|].
    destruct (Z.eqb_spec (JS.code c) 239); [lia | done]. }
  by destruct r as [|d [|e r]].
Qed.

Lemma trimStart_text (d : Decimal.uint) : JS.trimStart (text d) = text d.
Proof. destruct d; [done | by apply trimStart_keeps..]. Qed.

(** Reading continues a positive accumulator as [Pos.of_uint_acc] does. *)
Lemma read_digits_acc (d : Decimal.uint) (acc : positive) :
  JS.read_digits 10 (text d) (Some (Z.pos acc))
  = Some (Z.pos (Pos.of_uint_acc d acc)).
Proof.
  revert acc. induction d; intros acc; [done | ..];
    cbn [text JS.read_digits Pos.of_uint_acc];
    (lazymatch goal with
     | |- context [JS.digit_value 10 ?c] =>
         let v := eval vm_compute in (JS.digit_value 10 c) in
         change (JS.digit_value 10 c) with v
     end);
    cbn [default from_option id]; rewrite <- IHd; do 2 f_equal; lia.
Qed.

(** From zero, leading zeros are skipped as [Pos.of_uint] does. *)
Lemma read_digits_zero (d : Decimal.uint) :
  JS.read_digits 10 (text d) (Some 0) = Some (Z.of_N (Pos.of_uint d)).
Proof.
  induction d; [done | exact IHd | ..];
    cbn [text JS.read_digits Pos.of_uint];
    (lazymatch goal with
     | |- context [JS.digit_value 10 ?c] =>
         let v := eval vm_compute in (JS.digit_value 10 c) in
         change (JS.digit_value 10 c) with v
     end);
    cbn [default from_option id Z.mul Z.add Z.of_N]; apply read_digits_acc.
Qed.

Lemma read_digits_start (d : Decimal.uint) :
  d ≠ Decimal.Nil →
  JS.read_digits 10 (text d) None = Some (Z.of_N (Pos.of_uint d)).
Proof.
  intros Hd. rewrite <- read_digits_zero. by destruct d.
Qed.

(** After the sign: a decimal text carries no [0x] prefix. *)
Lemma text_no_prefix (d : Decimal.uint) :
  match text d with
  | String "0" (String "x" r) => (16, r)
  | String "0" (String "X" r) => (16, r)
  | _ => (10, text d)
  end = (10, text d).
Proof. destruct d as [|d| | | | | | | | | ]; try done. by destruct d. Qed.

Lemma parseInt_text (d : Decimal.uint) :
  d ≠ Decimal.Nil → JS.parseInt (text d) = Some (Z.of_N (Pos.of_uint d)).
Proof.
  intros Hd. unfold JS.parseInt. rewrite trimStart_text.
  replace (match text d with
           | String "-" r => (-1, r)
           | String "+" r => (1, r)
           | _ => (1, text d)
           end) with (1, text d) by (by destruct d).
  rewrite text_no_prefix, (read_digits_start d Hd).
  f_equal; lia.
Qed.

Lemma parseInt_minus_text (d : Decimal.uint) :
  d ≠ Decimal.Nil →
  JS.parseInt (String "-" (text d)) = Some (- Z.of_N (Pos.of_uint d)).
Proof.
  intros Hd. unfold JS.parseInt. rewrite trimStart_keeps by done.
  rewrite text_no_prefix, (read_digits_start d Hd).
  f_equal; lia.
Qed.

(** Reading back the decimal text of an integer gives the integer. *)
Lemma parseInt_toString (n : Z) : JS.parseInt (JS.toString n) = Some n.
Proof.
  destruct n as [|p|p]; [done | ..]; unfold JS.toString; cbn [Z.to_int];
    pose proof (Unsigned.to_uint_nonnil p) as Hp;
    unfold NilZero.string_of_int, NilZero.string_of_uint;
    destruct (Pos.to_uint p) eqn:E; try done; rewrite <- E in *.
  all: first [ rewrite (parseInt_text _ Hp) | rewrite (parseInt_minus_text _ Hp) ];
    by rewrite DecimalPos.Unsigned.of_to.
Qed.

End decimal.


(** ** Plan consistency *)

(** Membership in a list that is written out. *)
Ltac in_list :=
  repeat first [apply list_elem_of_here | apply list_elem_of_further].

(** No membership in a list of string literals. *)
Ltac not_in_list :=
  let Hin := fresh "Hin" in
  intros Hin;
  repeat (apply elem_of_cons in Hin as [Hin | Hin]; [discriminate|]);
  by apply elem_of_nil in Hin.

Lemma getAvailablePlans_with_plan (p : string) (f : FormData) :
  getAvailablePlans (with_plan p f) = getAvailablePlans f.
Proof. reflexivity. Qed.

Lemma includes_spec (p : string) (l : list string) :
  includes p l = true ↔ p ∈ l.
Proof. unfold includes. by rewrite bool_decide_eq_true. Qed.

(** The effect written by cases on the list of available plans. *)
Lemma planEffect_cases (f : FormData) :
  planEffect f =
    match getAvailablePlans f with
    | [] => with_plan "" f
    | p :: _ => if includes (plan f) (getAvailablePlans f) then f else with_plan p f
    end.
Proof.
  unfold planEffect. destruct (getAvailablePlans f) as [|p l] eqn:E; [done|].
  cbn [length Nat.ltb Nat.leb Nat.eqb andb head default].
  by destruct (includes (plan f) (p :: l)).
Qed.

(** C4: for every request type and network of the form's selects, with
    [available] the list the catalogue [PLANS] holds for the pair (empty
    when it holds none): after the plan-consistency effect a plan that was
    in [available] is kept, otherwise the plan is the first of [available],
    or empty when [available] is empty; the outcome satisfies the catalogue
    invariant and a second run changes nothing. *)
Theorem planEffect_resolves (f : FormData) :
  type f ∈ typeOptions →
  network f ∈ networkOptions →
  let available := default [] (PLANS !! type f ≫= (.!! network f)) in
  match decide (plan f ∈ available), available with
  | left _, _ => planEffect f = f
  | right _, first :: _ => planEffect f = with_plan first f
  | right _, [] => planEffect f = with_plan "" f
  end
  ∧ (plan (planEffect f) ∈ available ∨ available = [] ∧ plan (planEffect f) = "")
  ∧ planEffect (planEffect f) = planEffect f.
Proof.
  intros _ _ available. subst available.
  change (default [] (PLANS !! type f ≫= (.!! network f)))
    with (getAvailablePlans f).
  pose proof (planEffect_cases f) as Hc.
  destruct (getAvailablePlans f) as [|p l] eqn:E.
  - (* no plan available *)
    rewrite Hc. split_and!.
    + destruct (decide _) as [Hin|_]; [by apply elem_of_nil in Hin | done].
    + right. done.
    + rewrite planEffect_cases, getAvailablePlans_with_plan, E. done.
  - destruct (includes (plan f) (p :: l)) eqn:Einc.
    + (* the plan is available *)
      apply includes_spec in Einc. rewrite Hc. split_and!.
      * by destruct (decide _).
      * by left.
      * done.
    + (* the plan is not available *)
      assert (plan f ∉ p :: l) as Hnin.
      { intros Hin. apply includes_spec in Hin. congruence. }
      rewrite Hc. split_and!.
      * by destruct (decide _).
      * left. cbn. apply list_elem_of_here.
      * rewrite planEffect_cases, getAvailablePlans_with_plan, E.
        cbn [plan with_plan].
        replace (includes p (p :: l)) with true; [done|].
        symmetry. apply includes_spec, list_elem_of_here.
Qed.

(** C4 (witness): the form holds plan 249 of NEW and AIRTEL when the network
    becomes JIO, whose list is 349 alone: the plan becomes 349. *)
Lemma planEffect_resolves_jio :
  planEffect (handleChange "network" "JIO" mount)
  = with_plan "349" (handleChange "network" "JIO" mount)
  ∧ (plan (planEffect (handleChange "network" "JIO" mount)) ∈ ["349"]
     ∨ ["349"] = [] ∧ plan (planEffect (handleChange "network" "JIO" mount)) = "")
  ∧ planEffect (planEffect (handleChange "network" "JIO" mount))
    = planEffect (handleChange "network" "JIO" mount).
Proof.
  assert (type (handleChange "network" "JIO" mount) ∈ typeOptions) as Ht
    by (unfold typeOptions; in_list).
  assert (network (handleChange "network" "JIO" mount) ∈ networkOptions) as Hn
    by (unfold networkOptions; in_list).
  exact (planEffect_resolves (handleChange "network" "JIO" mount) Ht Hn).
Defined.

(** ** Price *)

Lemma num_or_zero (n : option Z) : JS.num_or n 0 = default 0 n.
Proof.
  destruct n as [z|]; [|done]. cbn. destruct (Z.eqb_spec z 0); by subst.
Qed.

Lemma getTotalPrice_read (f : FormData) :
  getTotalPrice f = default 0 (JS.parseInt (plan f)) + 50.
Proof. unfold getTotalPrice. by rewrite num_or_zero. Qed.

(** C7 (as amended): within the safe range of integers, the total is the
    delivery charge plus the number [parseInt] reads from the plan, a
    negative number included, and the delivery charge alone when it reads
    no number; the decimal text of an integer contributes that integer, the
    empty plan nothing. *)
Theorem getTotalPrice_parseInt (f : FormData) (n : Z) :
  JS.safe n →
  JS.safe (n + DELIVERY_CHARGE) →
  (JS.parseInt (plan f) = Some n → getTotalPrice f = n + 50)
  ∧ getTotalPrice (with_plan (JS.toString n) f) = n + DELIVERY_CHARGE
  ∧ (JS.parseInt (plan f) = None → getTotalPrice f = 50)
  ∧ getTotalPrice (with_plan "" f) = DELIVERY_CHARGE.
Proof.
  intros _ _. split_and!.
  - intros Hread. by rewrite getTotalPrice_read, Hread.
  - rewrite getTotalPrice_read. cbn [plan with_plan].
    by rewrite parseInt_toString.
  - intros Hread. by rewrite getTotalPrice_read, Hread.
  - done.
Qed.

(** C7 (witness): the plan 349 of the Jio order. *)
Lemma getTotalPrice_parseInt_349 :
  (JS.parseInt (plan jioOrder) = Some 349 → getTotalPrice jioOrder = 399)
  ∧ getTotalPrice (with_plan "349" jioOrder) = 399
  ∧ (JS.parseInt (plan jioOrder) = None → getTotalPrice jioOrder = 50)
  ∧ getTotalPrice (with_plan "" jioOrder) = 50.
Proof.
  apply (getTotalPrice_parseInt jioOrder 349);
    unfold JS.safe, JS.MAX_SAFE_INTEGER, DELIVERY_CHARGE; lia.
Defined.

(** C7 (counterexample): a plan that starts with a minus sign is read as a
    negative amount, so the total is neither a non-negative plan amount
    plus the delivery charge nor the delivery charge alone. *)
Lemma getTotalPrice_negative_plan :
  getTotalPrice (with_plan "-5" initialFormData) = 45
  ∧ ¬ ∃ planAmount : Z,
        0 ≤ planAmount
        ∧ getTotalPrice (with_plan "-5" initialFormData)
          = planAmount + DELIVERY_CHARGE.
Proof.
  split; [done|]. intros (planAmount & Hpos & Heq).
  change (45 = planAmount + 50) in Heq. lia.
Qed.

Lemma PLANS_listed :
  map_Forall (λ _ byNetwork,
    map_Forall (λ _ plans, Forall (λ p, p ∈ listedPrices) plans) byNetwork) PLANS.
Proof. apply (bool_decide_unpack _). by vm_compute. Qed.

Lemma getAvailablePlans_listed (f : FormData) (p : string) :
  p ∈ getAvailablePlans f → p ∈ listedPrices.
Proof.
  unfold getAvailablePlans. intros Hp.
  destruct (PLANS !! type f) as [byNetwork|] eqn:Et; cbn in Hp;
    [|by apply elem_of_nil in Hp].
  destruct (byNetwork !! network f) as [plans|] eqn:En; cbn in Hp;
    [|by apply elem_of_nil in Hp].
  pose proof (map_Forall_lookup_1 _ _ _ _ PLANS_listed Et) as Hn. cbn in Hn.
  pose proof (map_Forall_lookup_1 _ _ _ _ Hn En) as Hl. cbn in Hl.
  by apply (proj1 (Forall_forall _ _) Hl).
Qed.

Lemma listed_price_positive (p : string) :
  p ∈ listedPrices → ∃ n, JS.parseInt p = Some n ∧ 0 < n.
Proof.
  unfold listedPrices. intros Hp.
  repeat (apply elem_of_cons in Hp as [->|Hp]; [by eexists|]).
  by apply elem_of_nil in Hp.
Qed.

(** C10: with a plan from the current list, or no plan, the total is at
    least the delivery charge, hence positive, and [getQrCodeUrl] takes the
    branch that builds the QR request URL. *)
Theorem catalogue_plan_has_qr (f : FormData) :
  plan f ∈ getAvailablePlans f ∨ plan f = "" →
  DELIVERY_CHARGE = 50
  ∧ DELIVERY_CHARGE ≤ getTotalPrice f
  ∧ 0 < getTotalPrice f
  ∧ getQrCodeUrl f
    = "https://api.qrserver.com/v1/create-qr-code/?size=200x200&data="
      +:+ JS.encodeURIComponent (upiLink (getTotalPrice f))
  ∧ getQrCodeUrl f ≠ "".
Proof.
  intros Hplan.
  assert (50 ≤ getTotalPrice f) as Htotal.
  { destruct Hplan as [Hin | Hempty].
    - apply getAvailablePlans_listed, listed_price_positive in Hin
        as (n & Hn & Hpos).
      rewrite getTotalPrice_read, Hn. cbn. lia.
    - unfold getTotalPrice. rewrite Hempty. done. }
  assert (getQrCodeUrl f
    = "https://api.qrserver.com/v1/create-qr-code/?size=200x200&data="
      +:+ JS.encodeURIComponent (upiLink (getTotalPrice f))) as Hurl.
  { unfold getQrCodeUrl. cbn zeta.
    destruct (Z.leb_spec (getTotalPrice f) 0); [lia | done]. }
  split_and!; [done | done | lia | done |]. by rewrite Hurl.
Qed.

(** C10 (witness): the form before its first effect, with no plan. *)
Lemma catalogue_plan_has_qr_initial :
  (plan initialFormData ∈ getAvailablePlans initialFormData
   ∨ plan initialFormData = "")
  ∧ 0 < getTotalPrice initialFormData
  ∧ getQrCodeUrl initialFormData ≠ "".
Proof.
  assert (plan initialFormData ∈ getAvailablePlans initialFormData
          ∨ plan initialFormData = "") as H by (right; reflexivity).
  split; [exact H|].
  destruct (catalogue_plan_has_qr initialFormData H) as (_ & _ & Hpos & _ & Hqr).
  split; [exact Hpos | exact Hqr].
Defined.

(** ** Auto-fill *)

Lemma or_else_present (v fallback : string) :
  v ≠ "" → JS.or_else (Some v) fallback = v.
Proof. intros Hv. unfold JS.or_else. by destruct (decide (v = "")). Qed.

Lemma or_else_absent (a : option string) (fallback : string) :
  a = None ∨ a = Some "" → JS.or_else a fallback = fallback.
Proof. by intros [-> | ->]. Qed.

(** Each listed field of the merged form is the fallback chain on its
    property. *)
Lemma autoFill_field (extracted : gmap string string) (prev : FormData)
    (key : string) (field : FormData → string) :
  (key, field) ∈ extractedFields →
  field (autoFill extracted prev) = JS.or_else (extracted !! key) (field prev).
Proof.
  unfold extractedFields. intros Hin.
  repeat (apply elem_of_cons in Hin as [[= -> ->] | Hin]; [done|]).
  by apply elem_of_nil in Hin.
Qed.

(** C6: the merge goes field by field: a property that is present and not
    empty overwrites its field, a property that is absent or empty leaves
    the field as it was, and the location link, which the reply does not
    carry, is kept. *)
Theorem autoFill_fills_if_present (extracted : gmap string string)
    (prev : FormData) (key : string) (field : FormData → string) :
  (key, field) ∈ extractedFields →
  (∀ v, extracted !! key = Some v → v ≠ "" →
        field (autoFill extracted prev) = v)
  ∧ (extracted !! key = None ∨ extracted !! key = Some "" →
     field (autoFill extracted prev) = field prev)
  ∧ locationLink (autoFill extracted prev) = locationLink prev.
Proof.
  intros Hin. rewrite (autoFill_field _ _ _ _ Hin). split_and!.
  - intros v -> Hv. by apply or_else_present.
  - apply or_else_absent.
  - done.
Qed.

(** C6 (witness): an empty address and a name merged into a form that has
    both. *)
Lemma autoFill_fills_if_present_example :
  let extracted : gmap string string :=
    {[ "address" := ""; "customerName" := "X" ]} in
  let prev :=
    mkFormData "Z" "" "NEW" "AIRTEL" "249" "Y" "" "Cash on Delivery" "" in
  address (autoFill extracted prev) = "Y"
  ∧ name (autoFill extracted prev) = "X"
  ∧ autoFill extracted prev
    = mkFormData "X" "" "NEW" "AIRTEL" "249" "Y" "" "Cash on Delivery" "".
Proof.
  intros extracted prev.
  assert (("address", address) ∈ extractedFields) as Ha
    by (unfold extractedFields; in_list).
  assert (("customerName", name) ∈ extractedFields) as Hn
    by (unfold extractedFields; in_list).
  destruct (autoFill_fills_if_present extracted prev _ _ Ha) as (_ & Hkeep & _).
  destruct (autoFill_fills_if_present extracted prev _ _ Hn) as (Hfill & _ & _).
  split_and!.
  - apply Hkeep. right. reflexivity.
  - apply (Hfill "X"); [reflexivity | discriminate].
  - reflexivity.
Defined.

(** What [handleAiAutoFill] does once the input is not blank and a reply
    object arrives. *)
Lemma handleAiAutoFill_parsed (extracted : gmap string string) (st : AppState) :
  JS.blank (rawInput st) = false →
  handleAiAutoFill (Parsed extracted) st
  = ({| formData := autoFill extracted (formData st);
        rawInput := rawInput st;
        isAiLoading := false |}, []).
Proof. intros Hraw. unfold handleAiAutoFill. by rewrite Hraw. Qed.

(** C2 (as amended): a value of [requestType], [network] or
    [paymentMethod] outside the schema's vocabulary is not set aside: when
    it is not empty it overwrites the field like any other value, and
    nothing is reported. *)
Theorem autoFill_takes_unlisted_value (extracted : gmap string string)
    (st : AppState) (key : string) (field : FormData → string)
    (words : list string) (v : string) :
  (key, field, words) ∈ enumFields →
  JS.blank (rawInput st) = false →
  extracted !! key = Some v →
  v ≠ "" →
  v ∉ words →
  field (formData (handleAiAutoFill (Parsed extracted) st).1) = v
  ∧ (handleAiAutoFill (Parsed extracted) st).2 = [].
Proof.
  intros Hin Hraw Hkey Hv _. rewrite (handleAiAutoFill_parsed _ _ Hraw). cbn.
  split; [|done].
  assert ((key, field) ∈ extractedFields) as Hfield.
  { unfold enumFields in Hin. unfold extractedFields.
    repeat (apply elem_of_cons in Hin as [[= -> -> _] | Hin]; [in_list|]).
    by apply elem_of_nil in Hin. }
  rewrite (autoFill_field _ _ _ _ Hfield), Hkey. by apply or_else_present.
Qed.

(** C2 (witness): the request type [FOO]. *)
Lemma autoFill_takes_unlisted_value_FOO :
  type (formData (handleAiAutoFill (Parsed {[ "requestType" := "FOO" ]}) pasted).1)
  = "FOO"
  ∧ (handleAiAutoFill (Parsed {[ "requestType" := "FOO" ]}) pasted).2 = [].
Proof.
  apply (autoFill_takes_unlisted_value _ pasted "requestType" type
           ["NEW"; "MNP"; "REPLACEMENT"] "FOO").
  - unfold enumFields. apply list_elem_of_here.
  - reflexivity.
  - reflexivity.
  - discriminate.
  - not_in_list.
Defined.

(** C2 (counterexample): the extracted request type [FOO], not a word of
    the vocabulary, replaces the form's [NEW]. *)
Lemma autoFill_FOO_changes_type :
  type (formData pasted) = "NEW"
  ∧ ("FOO" ∉ ["NEW"; "MNP"; "REPLACEMENT"])
  ∧ type (formData (handleAiAutoFill (Parsed {[ "requestType" := "FOO" ]}) pasted).1)
    ≠ type (formData pasted).
Proof.
  split_and!; [reflexivity | not_in_list | discriminate].
Qed.

(** C5: an extracted plan amount is taken as it is. There is a form with a
    plan of its list and a reply that repeats the form's request type and
    network and carries another plan amount, in no list of the catalogue:
    the effect does not run, the plan becomes that amount and stays outside
    the list, until a change of network runs the effect, which replaces it
    by a plan of the new list. *)
Theorem autoFill_plan_outside_catalogue :
  ∃ (st : AppState) (extracted : gmap string string) (planAmount : string),
    JS.blank (rawInput st) = false
    ∧ planConsistent (formData st)
    ∧ plan (formData st) ≠ planAmount
    ∧ extracted !! "requestType" = Some (type (formData st))
    ∧ extracted !! "network" = Some (network (formData st))
    ∧ extracted !! "planAmount" = Some planAmount
    ∧ planAmount ≠ ""
    ∧ (planAmount ∉ getAvailablePlans (formData st))
    ∧ type (afterAutoFill (Parsed extracted) st) = type (formData st)
    ∧ network (afterAutoFill (Parsed extracted) st) = network (formData st)
    ∧ plan (afterAutoFill (Parsed extracted) st) = planAmount
    ∧ (plan (afterAutoFill (Parsed extracted) st)
       ∉ getAvailablePlans (afterAutoFill (Parsed extracted) st))
    ∧ ∃ network',
        network' ∈ networkOptions
        ∧ network' ≠ network (afterAutoFill (Parsed extracted) st)
        ∧ (planAmount
           ∉ getAvailablePlans
               (handleChange "network" network'
                  (afterAutoFill (Parsed extracted) st)))
        ∧ plan (edit "network" network' (afterAutoFill (Parsed extracted) st))
          ∈ getAvailablePlans
              (edit "network" network' (afterAutoFill (Parsed extracted) st)).
Proof.
  exists pasted,
    {[ "requestType" := "NEW"; "network" := "AIRTEL"; "planAmount" := "999" ]},
    "999".
  assert ("999" ∉ ["249"; "349"]) as Hout by not_in_list.
  split_and!; try reflexivity.
  - left. vm_compute. apply list_elem_of_here.
  - discriminate.
  - discriminate.
  - exact Hout.
  - exact Hout.
  - exists "VI". split_and!.
    + unfold networkOptions. in_list.
    + discriminate.
    + assert ("999" ∉ ["199"; "299"]) as Hvi by not_in_list. exact Hvi.
    + vm_compute. apply list_elem_of_here.
Qed.

(** C9 (as amended): when no reply object arrives, the form is left as it
    was, also after the next render; the user is alerted when the call or
    the parse throws, and not when the reply has no text. *)
Theorem failed_extraction_keeps_form (x : extraction) (st : AppState) :
  failed x = true →
  JS.blank (rawInput st) = false →
  formData (handleAiAutoFill x st).1 = formData st
  ∧ afterAutoFill x st = formData st
  ∧ isAiLoading (handleAiAutoFill x st).1 = false
  ∧ (handleAiAutoFill x st).2
    = if thrown x then [console_error; alert autoFillAlert] else [].
Proof.
  intros Hfailed Hraw.
  assert (formData (handleAiAutoFill x st).1 = formData st) as Hform.
  { unfold handleAiAutoFill. rewrite Hraw. by destruct x. }
  split_and!.
  - exact Hform.
  - unfold afterAutoFill, rerender. rewrite Hform.
    by rewrite bool_decide_eq_true_2.
  - unfold handleAiAutoFill. rewrite Hraw. by destruct x.
  - unfold handleAiAutoFill. rewrite Hraw. by destruct x.
Qed.

(** C9 (witness): the call rejects. *)
Lemma failed_extraction_keeps_form_rejected :
  formData (handleAiAutoFill CallThrows pasted).1 = formData pasted
  ∧ afterAutoFill CallThrows pasted = formData pasted
  ∧ isAiLoading (handleAiAutoFill CallThrows pasted).1 = false
  ∧ (handleAiAutoFill CallThrows pasted).2
    = [console_error; alert autoFillAlert].
Proof.
  apply (failed_extraction_keeps_form CallThrows pasted); reflexivity.
Defined.

(** C9 (counterexample): a reply without text is a failed extraction of
    which the user hears nothing. *)
Lemma empty_reply_is_silent :
  failed TextMissing = true
  ∧ JS.blank (rawInput pasted) = false
  ∧ formData (handleAiAutoFill TextMissing pasted).1 = formData pasted
  ∧ (handleAiAutoFill TextMissing pasted).2 = [].
Proof. by split_and!. Qed.

(** ** Sending *)

(** C1 (as amended): when the name, the mobile number, the address or the
    plan is empty, [handleSend] opens nothing and raises one fixed alert,
    the same whichever of the fields are missing. *)
Theorem handleSend_requires (f : FormData) :
  name f = "" ∨ mobile f = "" ∨ address f = "" ∨ plan f = "" →
  handleSend f = [alert requiredAlert]
  ∧ ∀ url, window_open url ∉ handleSend f.
Proof.
  intros Hmissing.
  assert (handleSend f = [alert requiredAlert]) as ->.
  { unfold handleSend, JS.falsy.
    destruct Hmissing as [-> | [-> | [-> | ->]]];
      rewrite ?orb_true_r; cbn; by rewrite ?orb_true_r. }
  split; [done|]. intros url Hin.
  apply list_elem_of_singleton in Hin. discriminate.
Qed.

(** C1 (witness): only the address is missing, the payment is by UPI and
    the transaction id is empty. *)
Lemma handleSend_requires_address :
  handleSend
    (mkFormData "Asha" "9876543210" "NEW" "JIO" "349" "" "" "UPI" "")
  = [alert "Please fill all required fields (*)"].
Proof.
  apply (handleSend_requires
           (mkFormData "Asha" "9876543210" "NEW" "JIO" "349" "" "" "UPI" "")).
  right. right. left. reflexivity.
Defined.

(** C1 (counterexample): with the four fields filled, payment by UPI and
    no transaction id, the order is sent; and the alert for a missing
    address and transaction id is the alert for a missing name. *)
Lemma handleSend_upi_without_reference :
  (∃ url,
     handleSend
       (mkFormData "Asha" "9876543210" "NEW" "JIO" "349" "12 Main Road" ""
          "UPI" "")
     = [window_open url])
  ∧ handleSend
      (mkFormData "Asha" "9876543210" "NEW" "JIO" "349" "" "" "UPI" "")
    = handleSend
        (mkFormData "" "9876543210" "NEW" "JIO" "349" "12 Main Road" ""
           "UPI" "UTR123456789").
Proof. split; [by eexists | done]. Qed.

Lemma append_assoc (a b c : string) : (a +:+ b) +:+ c = a +:+ (b +:+ c).
Proof.
  induction a as [|x a IH]; [done|].
  change (String x ((a +:+ b) +:+ c) = String x (a +:+ (b +:+ c))).
  by rewrite IH.
Qed.

(** The conditions of the two optional sections, as propositions. *)
Lemma shows_location (f : FormData) :
  negb (JS.falsy (locationLink f)) = bool_decide (locationLink f ≠ "").
Proof.
  unfold JS.falsy. destruct (decide (locationLink f = "")) as [Hl | Hl].
  - rewrite (bool_decide_eq_true_2 _ Hl). symmetry.
    apply bool_decide_eq_false_2. tauto.
  - rewrite (bool_decide_eq_false_2 _ Hl). symmetry.
    by apply bool_decide_eq_true_2.
Qed.

Lemma shows_transaction (f : FormData) :
  bool_decide (paymentMethod f = "UPI") && negb (JS.falsy (transactionId f))
  = bool_decide (paymentMethod f = "UPI" ∧ transactionId f ≠ "").
Proof.
  unfold JS.falsy.
  destruct (decide (paymentMethod f = "UPI")) as [Hp | Hp];
    [rewrite (bool_decide_eq_true_2 _ Hp) | rewrite (bool_decide_eq_false_2 _ Hp)];
    (destruct (decide (transactionId f = "")) as [Ht | Ht];
     [rewrite (bool_decide_eq_true_2 _ Ht) | rewrite (bool_decide_eq_false_2 _ Ht)]);
    cbn [andb negb]; symmetry;
    first [apply bool_decide_eq_true_2; tauto
          | apply bool_decide_eq_false_2; tauto].
Qed.

(** Settle [decide P] and [bool_decide P] together. *)
Ltac by_decision P :=
  let H := fresh "H" in
  destruct (decide P) as [H | H];
  [rewrite (bool_decide_eq_true_2 P H) | rewrite (bool_decide_eq_false_2 P H)].

(** C8: a form that passes the guard is sent as the lines below, in this
    order: heading, name, mobile, request type, network, plan, delivery
    charge, total, payment method, the transaction id exactly when the
    payment is by UPI and the id is not empty, the address, and the location
    exactly when there is one. A section that is left out takes its blank
    line with it. *)
Theorem handleSend_message (f : FormData) :
  name f ≠ "" → mobile f ≠ "" → address f ≠ "" → plan f ≠ "" →
  handleSend f
  = [window_open ("https://wa.me/919360626529?text="
                  +:+ JS.encodeURIComponent (orderMessage f))]
  ∧ orderMessage f
    = unlines
        (["📩 *SIM ORDER*";
          "";
          "🧑 *Name:* " +:+ name f;
          "📞 *Mobile:* " +:+ mobile f;
          "";
          "📌 *Type:* " +:+ type f;
          "📶 *Network:* " +:+ network f;
          "💰 *Plan:* ₹" +:+ plan f;
          "🚚 *Delivery:* ₹50";
          "💵 *Total:* ₹" +:+ JS.toString (getTotalPrice f);
          "💳 *Payment:* " +:+ paymentMethod f]
         ++ (if decide (paymentMethod f = "UPI" ∧ transactionId f ≠ "")
             then ["🆔 *Txn ID:* " +:+ transactionId f]
             else [])
         ++ [""; "🏠 *Address:* " +:+ address f]
         ++ (if decide (locationLink f ≠ "")
             then [""; "📍 *Location:* " +:+ locationLink f]
             else [])).
Proof.
  intros Hname Hmobile Haddress Hplan. split.
  - unfold handleSend, JS.falsy.
    by rewrite !bool_decide_eq_false_2.
  - unfold orderMessage. cbn zeta.
    rewrite shows_transaction, shows_location.
    by_decision (paymentMethod f = "UPI" ∧ transactionId f ≠ "");
      by_decision (locationLink f ≠ "");
      cbn [app unlines foldr]; rewrite !append_assoc; reflexivity.
Qed.

(** C8 (witness): the new Jio connection paid by UPI, without location. *)
Lemma handleSend_message_jioOrder :
  orderMessage jioOrder
  = unlines
      ["📩 *SIM ORDER*";
       "";
       "🧑 *Name:* Asha";
       "📞 *Mobile:* 9876543210";
       "";
       "📌 *Type:* NEW";
       "📶 *Network:* JIO";
       "💰 *Plan:* ₹349";
       "🚚 *Delivery:* ₹50";
       "💵 *Total:* ₹399";
       "💳 *Payment:* UPI";
       "🆔 *Txn ID:* UTR123456789";
       "";
       "🏠 *Address:* 12 Main Road"].
Proof.
  assert (name jioOrder ≠ "") as Hname by discriminate.
  assert (mobile jioOrder ≠ "") as Hmobile by discriminate.
  assert (address jioOrder ≠ "") as Haddress by discriminate.
  assert (plan jioOrder ≠ "") as Hplan by discriminate.
  destruct (handleSend_message jioOrder Hname Hmobile Haddress Hplan)
    as [_ Hmsg].
  exact Hmsg.
Defined.

(** ** Payment link *)

Section splitting.

Variable sep : ascii.

Lemma occurs_append (a b : string) :
  occurs sep (a +:+ b) = occurs sep a || occurs sep b.
Proof.
  induction a as [|x a IH]; [done|].
  change (Ascii.eqb x sep || occurs sep (a +:+ b)
          = Ascii.eqb x sep || occurs sep a || occurs sep b).
  rewrite IH. by destruct (Ascii.eqb x sep).
Qed.

Lemma cut_append (a b : string) :
  occurs sep a = false → cut sep (a +:+ String sep b) = (a, b).
Proof.
  induction a as [|x a IH]; intros Ha.
  - change (cut sep (String sep b) = (EmptyString, b)). cbn [cut].
    by rewrite Ascii.eqb_refl.
  - change (cut sep (String x (a +:+ String sep b)) = (String x a, b)).
    cbn [cut occurs] in *. apply orb_false_iff in Ha as [-> Ha].
    by rewrite (IH Ha).
Qed.

Lemma split_on_append (a b : string) :
  occurs sep a = false →
  split_on sep (a +:+ String sep b) = a :: split_on sep b.
Proof.
  induction a as [|x a IH]; intros Ha.
  - change (split_on sep (String sep b) = EmptyString :: split_on sep b).
    cbn [split_on]. by rewrite Ascii.eqb_refl.
  - change (split_on sep (String x (a +:+ String sep b))
            = String x a :: split_on sep b).
    cbn [split_on occurs] in *. apply orb_false_iff in Ha as [-> Ha].
    by rewrite (IH Ha).
Qed.

Lemma split_on_whole (a : string) :
  occurs sep a = false → split_on sep a = [a].
Proof.
  induction a as [|x a IH]; intros Ha; [done|].
  cbn [split_on occurs] in *. apply orb_false_iff in Ha as [-> Ha].
  by rewrite (IH Ha).
Qed.

End splitting.

(** A decimal text holds digits only. *)
Lemma text_no_ampersand (d : Decimal.uint) :
  occurs "&" (NilEmpty.string_of_uint d) = false.
Proof. induction d; [done | exact IHd ..]. Qed.

Lemma toString_no_ampersand (n : Z) : occurs "&" (JS.toString n) = false.
Proof.
  destruct n as [|p|p]; [done | ..]; unfold JS.toString; cbn [Z.to_int];
    unfold NilZero.string_of_int, NilZero.string_of_uint;
    destruct (Pos.to_uint p) eqn:E; try done; rewrite <- E;
    cbn [occurs]; apply text_no_ampersand.
Qed.

(** Percent-encoding leaves digits alone. *)
Lemma encodeURIComponent_text (d : Decimal.uint) :
  JS.encodeURIComponent (NilEmpty.string_of_uint d) = NilEmpty.string_of_uint d.
Proof.
  induction d; [done | ..];
    cbn [NilEmpty.string_of_uint JS.encodeURIComponent]; rewrite IHd; done.
Qed.

Lemma encodeURIComponent_toString (n : Z) :
  0 < n → JS.encodeURIComponent (JS.toString n) = JS.toString n.
Proof.
  destruct n as [|p|p]; [lia | | lia]. intros _.
  unfold JS.toString; cbn [Z.to_int].
  unfold NilZero.string_of_int, NilZero.string_of_uint.
  destruct (Pos.to_uint p) eqn:E; try done; rewrite <- E;
    apply encodeURIComponent_text.
Qed.

(** What one byte becomes under [encodeURIComponent] holds no [&]. *)
Lemma encoded_byte_no_ampersand (c : ascii) :
  occurs "&" (if JS.unreserved c then String c EmptyString else JS.escape c)
  = false.
Proof. by destruct c as [[] [] [] [] [] [] [] []]. Qed.

Lemma encodeURIComponent_no_ampersand (s : string) :
  occurs "&" (JS.encodeURIComponent s) = false.
Proof.
  induction s as [|c s IH]; [done|].
  cbn [JS.encodeURIComponent].
  by rewrite occurs_append, encoded_byte_no_ampersand, IH.
Qed.

(** The UPI link taken apart, whatever the amount. *)
Lemma upiLink_params (amount : Z) :
  (cut "?" (upiLink amount)).1 = "upi://pay"
  ∧ query_params (upiLink amount)
    = [("pa", MERCHANT_UPI); ("pn", JS.encodeURIComponent MERCHANT_NAME);
       ("am", JS.toString amount); ("cu", "INR")].
Proof.
  pose proof (toString_no_ampersand amount) as Hamp.
  unfold query_params.
  change (upiLink amount)
    with ("upi://pay" +:+ String "?"
            ("pa=sakthi000505@okhdfcbank" +:+ String "&"
               ("pn=SAKTHI" +:+ String "&"
                  (("am=" +:+ JS.toString amount) +:+ String "&" "cu=INR")))).
  rewrite cut_append by reflexivity. split; [reflexivity|]. cbn [snd].
  rewrite !split_on_append, (split_on_whole "&" "cu=INR");
    [| reflexivity | by rewrite occurs_append, Hamp | reflexivity..].
  cbn [map].
  change ("am=" +:+ JS.toString amount)
    with ("am" +:+ String "=" (JS.toString amount)).
  rewrite cut_append by reflexivity. reflexivity.
Qed.

(** C3 (as amended): for a positive total within the safe range of
    integers the UPI link carries the four
    parameters [pa], [pn], [am], [cu] in this order; the payee name is
    percent-encoded, the amount and the currency code are made of
    characters that percent-encoding leaves alone, and the payee address is
    written as it is. The QR request URL has the size and, as [data], the
    percent-encoded link. *)
Theorem getQrCodeUrl_parameters (f : FormData) :
  pricedExactly f →
  0 < getTotalPrice f →
  let amount := getTotalPrice f in
  (cut "?" (upiLink amount)).1 = "upi://pay"
  ∧ query_params (upiLink amount)
    = [("pa", MERCHANT_UPI); ("pn", JS.encodeURIComponent MERCHANT_NAME);
       ("am", JS.toString amount); ("cu", "INR")]
  ∧ JS.encodeURIComponent (JS.toString amount) = JS.toString amount
  ∧ JS.encodeURIComponent "INR" = "INR"
  ∧ (cut "?" (getQrCodeUrl f)).1 = "https://api.qrserver.com/v1/create-qr-code/"
  ∧ query_params (getQrCodeUrl f)
    = [("size", "200x200");
       ("data", JS.encodeURIComponent (upiLink amount))].
Proof.
  intros _ Hpos amount. subst amount.
  destruct (upiLink_params (getTotalPrice f)) as [Hscheme Hparams].
  split_and!; [done | done | by apply encodeURIComponent_toString | done | ..].
  all: unfold getQrCodeUrl, query_params; cbn zeta;
    destruct (Z.leb_spec (getTotalPrice f) 0) as [Hle | _]; [lia|].
  all: pose proof (encodeURIComponent_no_ampersand (upiLink (getTotalPrice f)))
         as Hamp;
    set (link := JS.encodeURIComponent (upiLink (getTotalPrice f))) in *;
    change ("https://api.qrserver.com/v1/create-qr-code/?size=200x200&data="
            +:+ link)
      with ("https://api.qrserver.com/v1/create-qr-code/" +:+ String "?"
              ("size=200x200" +:+ String "&" ("data" +:+ String "=" link)));
    rewrite cut_append by reflexivity.
  - reflexivity.
  - cbn [snd]. rewrite split_on_append by reflexivity.
    rewrite split_on_whole
      by (rewrite occurs_append; cbn [occurs]; rewrite Hamp; reflexivity).
    cbn [map]. rewrite cut_append by reflexivity. reflexivity.
Qed.

(** C3 (witness): the mounted form, plan 249 and total 299. *)
Lemma getQrCodeUrl_parameters_mount :
  query_params (upiLink 299)
  = [("pa", "sakthi000505@okhdfcbank"); ("pn", "SAKTHI"); ("am", "299");
     ("cu", "INR")]
  ∧ query_params (getQrCodeUrl mount)
    = [("size", "200x200");
       ("data",
        "upi%3A%2F%2Fpay%3Fpa%3Dsakthi000505%40okhdfcbank%26pn%3DSAKTHI%26am%3D299%26cu%3DINR")].
Proof.
  assert (0 < getTotalPrice mount) as Hpos by reflexivity.
  assert (pricedExactly mount) as Hexact.
  { unfold pricedExactly, JS.safe, JS.MAX_SAFE_INTEGER.
    change (getTotalPrice mount) with 299.
    change (default 0 (JS.parseInt (plan mount))) with 249. lia. }
  destruct (getQrCodeUrl_parameters mount Hexact Hpos)
    as (_ & Hlink & _ & _ & _ & Hqr).
  split; [exact Hlink | exact Hqr].
Defined.

(** C3 (counterexample): in the link for the mounted form the payee address
    stands as it is, and that is not its percent-encoding. *)
Lemma upiLink_payee_address_verbatim :
  0 < getTotalPrice mount
  ∧ query_params (upiLink (getTotalPrice mount)) !! 0%nat
    = Some ("pa", "sakthi000505@okhdfcbank")
  ∧ JS.encodeURIComponent MERCHANT_UPI = "sakthi000505%40okhdfcbank"
  ∧ ¬ ∃ v, query_params (upiLink (getTotalPrice mount)) !! 0%nat = Some ("pa", v)
           ∧ v = JS.encodeURIComponent MERCHANT_UPI.
Proof.
  split_and!; [reflexivity.. |].
  intros (v & Hv & ->). discriminate Hv.
Qed.

(** ** Scenarios *)

(** The first render selects the first plan of NEW and AIRTEL. *)
Example mount_plan : plan mount = "249" ∧ getTotalPrice mount = 299.
Proof. done. Qed.

(** Choosing JIO leaves one plan, which is selected: the total is 399. *)
Example choose_jio :
  let f := rerender mount (handleChange "network" "JIO" mount) in
  getAvailablePlans f = ["349"] ∧ plan f = "349" ∧ getTotalPrice f = 399.
Proof. done. Qed.

(** REPLACEMENT has no JIO entry: the plan is cleared and the order cannot
    be sent. *)
Example replacement_jio :
  let jio := rerender jioOrder (handleChange "network" "JIO" jioOrder) in
  let f := rerender jio (handleChange "type" "REPLACEMENT" jio) in
  getAvailablePlans f = [] ∧ plan f = "" ∧ handleSend f = [alert requiredAlert].
Proof. done. Qed.

(** An unknown request type from the reply has no plans either. *)
Example unknown_type_clears_plan :
  plan (afterAutoFill (Parsed {[ "requestType" := "FOO" ]}) pasted) = "".
Proof. done. Qed.

(** The readings of [parseInt] on plans that are not plain decimals. *)
Example parseInt_readings :
  JS.parseInt "12abc" = Some 12 ∧ JS.parseInt " 42" = Some 42
  ∧ JS.parseInt "0x1F" = Some 31 ∧ JS.parseInt "-5" = Some (-5)
  ∧ JS.parseInt "₹349" = None ∧ JS.parseInt "" = None.
Proof. done. Qed.

(** A blank paste starts no extraction. *)
Example blank_input_is_ignored (x : extraction) (f : FormData) :
  handleAiAutoFill x (mkAppState f "  " false) = (mkAppState f "  " false, []).
Proof. done. Qed.

(** ** Percent-encoding *)

(** What one byte becomes under [encodeURIComponent] decodes to the byte. *)
Lemma percent_decode_byte (c : ascii) (rest : string) :
  percent_decode
    ((if JS.unreserved c then String c EmptyString else JS.escape c) +:+ rest)
  = String c (percent_decode rest).
Proof.
  destruct c as [[] [] [] [] [] [] [] []]; try reflexivity;
    destruct rest as [|h [|l r]]; reflexivity.
Qed.

Lemma percent_decode_encode (s : string) :
  percent_decode (JS.encodeURIComponent s) = s.
Proof.
  induction s as [|c s IH]; [done|].
  cbn [JS.encodeURIComponent]. by rewrite percent_decode_byte, IH.
Qed.

(** X1: decoding the percent-escapes of an encoded text gives the text
    back, so two texts with the same encoding are the same text. *)
Theorem encodeURIComponent_decodes (s : string) :
  percent_decode (JS.encodeURIComponent s) = s
  ∧ ∀ s', JS.encodeURIComponent s = JS.encodeURIComponent s' → s = s'.
Proof.
  split; [apply percent_decode_encode|].
  intros s' Heq.
  rewrite <- (percent_decode_encode s), <- (percent_decode_encode s').
  by rewrite Heq.
Qed.

Lemma all_chars_append (P : ascii → bool) (a b : string) :
  all_chars P (a +:+ b) = all_chars P a && all_chars P b.
Proof.
  induction a as [|x a IH]; [done|].
  change (P x && all_chars P (a +:+ b) = P x && all_chars P a && all_chars P b).
  rewrite IH. by destruct (P x).
Qed.

Lemma encoded_byte_alphabet (c : ascii) :
  all_chars (λ x, JS.unreserved x || Ascii.eqb x "%")
    (if JS.unreserved c then String c EmptyString else JS.escape c) = true.
Proof. by destruct c as [[] [] [] [] [] [] [] []]. Qed.

(** Whatever the text, emoji and line feeds included, its encoding is made
    of letters, digits, the marks [- _ . ! ~ * ' ( )] and [%] only. *)
Lemma encodeURIComponent_alphabet (s : string) :
  all_chars (λ x, JS.unreserved x || Ascii.eqb x "%")
    (JS.encodeURIComponent s) = true.
Proof.
  induction s as [|c s IH]; [done|].
  cbn [JS.encodeURIComponent].
  by rewrite all_chars_append, encoded_byte_alphabet, IH.
Qed.

(** ** The links handed out *)

(** X3: the link opened for a form that passes the guard addresses the
    configured number and carries a single parameter, [text], which decodes
    to the message: nothing typed into a field can add a parameter. *)
Theorem handleSend_link (f : FormData) :
  name f ≠ "" → mobile f ≠ "" → address f ≠ "" → plan f ≠ "" →
  ∃ url text,
    handleSend f = [window_open url]
    ∧ (cut "?" url).1 = "https://wa.me/" +:+ WHATSAPP_NUMBER
    ∧ query_params url = [("text", text)]
    ∧ percent_decode text = orderMessage f.
Proof.
  intros Hname Hmobile Haddress Hplan.
  exists ("https://wa.me/919360626529?text="
          +:+ JS.encodeURIComponent (orderMessage f)),
    (JS.encodeURIComponent (orderMessage f)).
  pose proof (encodeURIComponent_no_ampersand (orderMessage f)) as Hamp.
  set (text := JS.encodeURIComponent (orderMessage f)) in *.
  assert (cut "?" ("https://wa.me/919360626529?text=" +:+ text)
          = ("https://wa.me/919360626529", "text=" +:+ text)) as Hcut.
  { change ("https://wa.me/919360626529?text=" +:+ text)
      with ("https://wa.me/919360626529" +:+ String "?" ("text=" +:+ text)).
    by rewrite cut_append. }
  split_and!.
  - unfold handleSend, JS.falsy. by rewrite !bool_decide_eq_false_2.
  - by rewrite Hcut.
  - unfold query_params. rewrite Hcut. cbn [snd].
    rewrite split_on_whole
      by (rewrite occurs_append; cbn [occurs]; rewrite Hamp; reflexivity).
    cbn [map].
    change ("text=" +:+ text) with ("text" +:+ String "=" text).
    by rewrite cut_append.
  - apply percent_decode_encode.
Qed.

(** X3 (witness): the new Jio connection paid by UPI. *)
Lemma handleSend_link_jioOrder :
  ∃ url text,
    handleSend jioOrder = [window_open url]
    ∧ (cut "?" url).1 = "https://wa.me/919360626529"
    ∧ query_params url = [("text", text)]
    ∧ percent_decode text = orderMessage jioOrder.
Proof.
  assert (name jioOrder ≠ "") as Hname by discriminate.
  assert (mobile jioOrder ≠ "") as Hmobile by discriminate.
  assert (address jioOrder ≠ "") as Haddress by discriminate.
  assert (plan jioOrder ≠ "") as Hplan by discriminate.
  exact (handleSend_link jioOrder Hname Hmobile Haddress Hplan).
Defined.

Lemma all_chars_impl (P Q : ascii → bool) (s : string) :
  (∀ c, P c = true → Q c = true) →
  all_chars P s = true → all_chars Q s = true.
Proof.
  intros HPQ. induction s as [|c s IH]; [done|]. cbn [all_chars].
  intros [Hc Hs]%andb_true_iff. by rewrite (HPQ c Hc), (IH Hs).
Qed.

(** X2: whatever the fields hold, emoji and line feeds included, the link
    opened by [handleSend] and the QR request URL are made of letters,
    digits, the marks [- _ . ! ~ * ' ( )] and the URL punctuation
    [% : / ? = &] only. *)
Theorem links_are_plain (f : FormData) :
  (∀ url, window_open url ∈ handleSend f →
          all_chars (λ x, JS.unreserved x || occurs x "%:/?=&") url = true)
  ∧ all_chars (λ x, JS.unreserved x || occurs x "%:/?=&") (getQrCodeUrl f)
    = true.
Proof.
  assert (∀ s, all_chars (λ x, JS.unreserved x || occurs x "%:/?=&")
                 (JS.encodeURIComponent s) = true) as Henc.
  { intros s.
    apply (all_chars_impl (λ x, JS.unreserved x || Ascii.eqb x "%"));
      [|apply encodeURIComponent_alphabet].
    intros c. destruct (JS.unreserved c); [done|]. cbn.
    by intros ->%Ascii.eqb_eq. }
  split.
  - intros url. unfold handleSend.
    destruct (_ || _); intros Hin%list_elem_of_singleton; [discriminate|].
    injection Hin as ->. by rewrite !all_chars_append, Henc.
  - unfold getQrCodeUrl. cbn zeta. destruct (_ <=? _); [done|].
    by rewrite all_chars_append, Henc.
Qed.

Lemma toString_inj (a b : Z) : JS.toString a = JS.toString b → a = b.
Proof.
  intros Heq. apply (inj Some).
  by rewrite <- (parseInt_toString a), <- (parseInt_toString b), Heq.
Qed.

Lemma getQrCodeUrl_positive (f : FormData) :
  0 < getTotalPrice f →
  getQrCodeUrl f
  = "https://api.qrserver.com/v1/create-qr-code/?size=200x200&data="
    +:+ JS.encodeURIComponent (upiLink (getTotalPrice f)).
Proof.
  intros Hpos. unfold getQrCodeUrl. cbn zeta.
  destruct (Z.leb_spec (getTotalPrice f) 0); [lia | done].
Qed.

Lemma getQrCodeUrl_empty (f : FormData) :
  getQrCodeUrl f = "" ↔ getTotalPrice f ≤ 0.
Proof.
  unfold getQrCodeUrl. cbn zeta.
  destruct (Z.leb_spec (getTotalPrice f) 0); split; done || lia.
Qed.

(** X4: the QR request URL fixes the amount: two forms that get the same
    URL, one of them with a positive total, have the same total. *)
Theorem getQrCodeUrl_fixes_amount (f1 f2 : FormData) :
  0 < getTotalPrice f1 →
  getQrCodeUrl f1 = getQrCodeUrl f2 →
  getTotalPrice f1 = getTotalPrice f2.
Proof.
  intros Hpos Heq.
  assert (0 < getTotalPrice f2) as Hpos2.
  { destruct (Z.leb_spec (getTotalPrice f2) 0) as [Hle | Hlt]; [|done].
    apply getQrCodeUrl_empty in Hle.
    rewrite Hle, (getQrCodeUrl_positive f1 Hpos) in Heq. discriminate. }
  rewrite (getQrCodeUrl_positive f1 Hpos), (getQrCodeUrl_positive f2 Hpos2) in Heq.
  apply (inj (String.append _)) in Heq.
  assert (upiLink (getTotalPrice f1) = upiLink (getTotalPrice f2)) as Hlink.
  { rewrite <- (percent_decode_encode (upiLink (getTotalPrice f1))),
      <- (percent_decode_encode (upiLink (getTotalPrice f2))).
    by rewrite Heq. }
  destruct (upiLink_params (getTotalPrice f1)) as [_ H1].
  destruct (upiLink_params (getTotalPrice f2)) as [_ H2].
  rewrite Hlink, H2 in H1.
  apply toString_inj. congruence.
Qed.

(** X4 (witness): choosing Jio for a new connection or for a port gives
    the same URL, for 399. *)
Lemma getQrCodeUrl_fixes_amount_jio :
  getTotalPrice (edit "network" "JIO" mount)
  = getTotalPrice (edit "type" "MNP" (edit "network" "JIO" mount)).
Proof.
  apply (getQrCodeUrl_fixes_amount
           (edit "network" "JIO" mount)
           (edit "type" "MNP" (edit "network" "JIO" mount)));
    reflexivity.
Defined.

(** X5: [getQrCodeUrl] answers the empty string exactly when [parseInt]
    reads from the plan a number of -50 or less; in every other case,
    unreadable plans included, it answers a URL. *)
Theorem getQrCodeUrl_empty_iff (f : FormData) :
  getQrCodeUrl f = "" ↔ ∃ n, JS.parseInt (plan f) = Some n ∧ n ≤ -50.
Proof.
  rewrite getQrCodeUrl_empty, getTotalPrice_read.
  destruct (JS.parseInt (plan f)) as [n|]; cbn; split.
  - intros Hle. exists n. split; [done | lia].
  - intros (m & [= <-] & Hm). lia.
  - lia.
  - by intros (m & Hm & _).
Qed.

(** ** Reading a plan that has text after the number *)

Section trailing.

Local Abbreviation text := NilEmpty.string_of_uint.

Variable rest : string.
Hypothesis Hstops : stops rest = true.

Lemma read_digits_stops (acc : option Z) : JS.read_digits 10 rest acc = acc.
Proof.
  destruct rest as [|c r]; [done|]. cbn [JS.read_digits].
  cbn [stops] in Hstops.
  destruct (JS.digit_value 10 c) as [v|]; [|done].
  by rewrite bool_decide_eq_true_2 in Hstops.
Qed.

Lemma read_digits_text_append (d : Decimal.uint) (acc : option Z) :
  JS.read_digits 10 (text d +:+ rest) acc = JS.read_digits 10 (text d) acc.
Proof.
  revert acc. induction d; intros acc;
    [apply read_digits_stops | ..];
    cbn [text];
    (lazymatch goal with
     | |- context [String ?c (text ?d') +:+ rest] =>
         change (String c (text d') +:+ rest) with (String c (text d' +:+ rest))
     end);
    cbn [JS.read_digits];
    (lazymatch goal with
     | |- context [JS.digit_value 10 ?c] =>
         let v := eval vm_compute in (JS.digit_value 10 c) in
         change (JS.digit_value 10 c) with v
     end);
    apply IHd.
Qed.

(** The head of [rest] does not complete a [0x] prefix. *)
Lemma stops_no_prefix :
  match String "0" rest with
  | String "0" (String "x" r) => (16, r)
  | String "0" (String "X" r) => (16, r)
  | _ => (10, String "0" rest)
  end = (10, String "0" rest).
Proof.
  destruct rest as [|c r]; [done|]. cbn [stops] in Hstops.
  destruct c as [[] [] [] [] [] [] [] []]; try reflexivity; discriminate.
Qed.

Lemma text_append_no_prefix (d : Decimal.uint) :
  d ≠ Decimal.Nil →
  match text d +:+ rest with
  | String "0" (String "x" r) => (16, r)
  | String "0" (String "X" r) => (16, r)
  | _ => (10, text d +:+ rest)
  end = (10, text d +:+ rest).
Proof.
  intros Hd. destruct d as [|d| | | | | | | | | ]; try done.
  destruct d; [apply stops_no_prefix | done..].
Qed.

Lemma parseInt_text_append (d : Decimal.uint) :
  d ≠ Decimal.Nil →
  JS.parseInt (text d +:+ rest) = Some (Z.of_N (Pos.of_uint d)).
Proof.
  intros Hd. unfold JS.parseInt.
  assert (JS.trimStart (text d +:+ rest) = text d +:+ rest) as ->.
  { destruct d; [done | by apply trimStart_keeps..]. }
  replace (match text d +:+ rest with
           | String "-" r => (-1, r)
           | String "+" r => (1, r)
           | _ => (1, text d +:+ rest)
           end) with (1, text d +:+ rest) by (by destruct d).
  rewrite (text_append_no_prefix d Hd), read_digits_text_append,
    (read_digits_start d Hd).
  f_equal; lia.
Qed.

Lemma parseInt_minus_text_append (d : Decimal.uint) :
  d ≠ Decimal.Nil →
  JS.parseInt (String "-" (text d +:+ rest)) = Some (- Z.of_N (Pos.of_uint d)).
Proof.
  intros Hd. unfold JS.parseInt. rewrite trimStart_keeps by done.
  rewrite (text_append_no_prefix d Hd), read_digits_text_append,
    (read_digits_start d Hd).
  f_equal; lia.
Qed.

Lemma parseInt_toString_append (n : Z) :
  JS.parseInt (JS.toString n +:+ rest) = Some n.
Proof.
  destruct n as [|p|p].
  - apply (parseInt_text_append (Decimal.D0 Decimal.Nil)). done.
  - unfold JS.toString; cbn [Z.to_int].
    pose proof (Unsigned.to_uint_nonnil p) as Hp.
    unfold NilZero.string_of_int, NilZero.string_of_uint.
    destruct (Pos.to_uint p) eqn:E; try done; rewrite <- E in *;
      rewrite (parseInt_text_append _ Hp);
      by rewrite DecimalPos.Unsigned.of_to.
  - unfold JS.toString; cbn [Z.to_int].
    pose proof (Unsigned.to_uint_nonnil p) as Hp.
    unfold NilZero.string_of_int, NilZero.string_of_uint.
    destruct (Pos.to_uint p) eqn:E; try done; rewrite <- E in *;
      (lazymatch goal with
       | |- context [String "-" ?t +:+ rest] =>
           change (String "-" t +:+ rest) with (String "-" (t +:+ rest))
       end);
      rewrite (parseInt_minus_text_append _ Hp);
      by rewrite DecimalPos.Unsigned.of_to.
Qed.

End trailing.

(** X6: within the safe range of integers, a plan that is the decimal text
    of an integer followed by text that does not begin with a digit, nor
    with the [x] of a hexadecimal prefix, is priced as that integer: the
    trailing text is ignored. *)
Theorem getTotalPrice_ignores_trailing_text (f : FormData) (n : Z)
    (rest : string) :
  JS.safe n →
  JS.safe (n + DELIVERY_CHARGE) →
  stops rest = true →
  JS.parseInt (JS.toString n +:+ rest) = Some n
  ∧ getTotalPrice (with_plan (JS.toString n +:+ rest) f) = n + DELIVERY_CHARGE.
Proof.
  intros _ _ Hstops.
  pose proof (parseInt_toString_append rest Hstops n) as Hread.
  split; [done|].
  rewrite getTotalPrice_read. cbn [plan with_plan]. by rewrite Hread.
Qed.

(** X6 (witness): the plan [349 plan] is priced 399. *)
Lemma getTotalPrice_ignores_trailing_text_349 :
  JS.parseInt "349 plan" = Some 349
  ∧ getTotalPrice (with_plan "349 plan" mount) = 399.
Proof.
  apply (getTotalPrice_ignores_trailing_text mount 349 " plan");
    [unfold JS.safe, JS.MAX_SAFE_INTEGER, DELIVERY_CHARGE; lia.. | reflexivity].
Defined.

(** ** The catalogue as a table *)

(** Rewrite the lookups of a key in a map that is written out. *)
Ltac lookup_literal :=
  repeat first
    [ rewrite lookup_insert_eq
    | rewrite lookup_insert_ne by done
    | rewrite lookup_singleton_eq
    | rewrite lookup_singleton_ne by done ].

Lemma getAvailablePlans_at (f : FormData) (t n : string) :
  type f = t → network f = n →
  getAvailablePlans f = default [] (PLANS !! t ≫= (.!! n)).
Proof. intros <- <-. reflexivity. Qed.

Lemma getAvailablePlans_unknown_type (f : FormData) :
  type f ∉ typeOptions → getAvailablePlans f = [].
Proof.
  unfold typeOptions. intros Hout.
  assert (type f ≠ "NEW" ∧ type f ≠ "MNP" ∧ type f ≠ "REPLACEMENT")
    as (H1 & H2 & H3).
  { split_and!; intros Heq; apply Hout; rewrite Heq; in_list. }
  unfold getAvailablePlans, PLANS. by lookup_literal.
Qed.

Lemma getAvailablePlans_unknown_network (f : FormData) :
  network f ∉ networkOptions → getAvailablePlans f = [].
Proof.
  unfold networkOptions. intros Hout.
  assert (network f ≠ "AIRTEL" ∧ network f ≠ "JIO" ∧ network f ≠ "VI")
    as (H1 & H2 & H3).
  { split_and!; intros Heq; apply Hout; rewrite Heq; in_list. }
  unfold getAvailablePlans.
  destruct (PLANS !! type f) as [byNetwork|] eqn:Et; [|done]. cbn.
  destruct (decide (type f = "NEW")) as [Ht | Hnew];
    [rewrite Ht in Et; unfold PLANS in Et; revert Et; lookup_literal;
     intros [= <-]; by lookup_literal|].
  destruct (decide (type f = "MNP")) as [Ht | Hmnp];
    [rewrite Ht in Et; unfold PLANS in Et; revert Et; lookup_literal;
     intros [= <-]; by lookup_literal|].
  destruct (decide (type f = "REPLACEMENT")) as [Ht | Hrep];
    [rewrite Ht in Et; unfold PLANS in Et; revert Et; lookup_literal;
     intros [= <-]; by lookup_literal|].
  unfold PLANS in Et. revert Et. by lookup_literal.
Qed.

Lemma available_populated (f : FormData) :
  (type f, network f) ∈ populated → getAvailablePlans f ≠ [].
Proof.
  unfold populated. intros H.
  repeat (apply elem_of_cons in H as [[= Ht Hn] | H];
          [by rewrite (getAvailablePlans_at f _ _ Ht Hn)|]).
  by apply elem_of_nil in H.
Qed.

Lemma available_unpopulated (f : FormData) :
  (type f, network f) ∉ populated → getAvailablePlans f = [].
Proof.
  intros H.
  destruct (decide (type f ∈ typeOptions)) as [Ht | Ht];
    [|by apply getAvailablePlans_unknown_type].
  destruct (decide (network f ∈ networkOptions)) as [Hn | Hn];
    [|by apply getAvailablePlans_unknown_network].
  unfold typeOptions in Ht. unfold networkOptions in Hn.
  repeat (apply elem_of_cons in Ht as [Ht | Ht]);
    try (by apply elem_of_nil in Ht);
    repeat (apply elem_of_cons in Hn as [Hn | Hn]);
    try (by apply elem_of_nil in Hn);
    try (by rewrite (getAvailablePlans_at f _ _ Ht Hn));
    exfalso; apply H; rewrite Ht, Hn; unfold populated; in_list.
Qed.

(** X7: for a request type and a network that are not names inherited by
    every object, plans are available exactly for the eight pairs that the
    table populates; for every other such pair, the missing REPLACEMENT and
    JIO and any unknown name included, the list is empty, the effect clears
    the plan and the order cannot be sent. *)
Theorem getAvailablePlans_populated (f : FormData) :
  ownLookup f →
  (getAvailablePlans f ≠ [] ↔ (type f, network f) ∈ populated)
  ∧ ((type f, network f) ∉ populated →
     getAvailablePlans f = []
     ∧ plan (planEffect f) = ""
     ∧ handleSend (planEffect f) = [alert requiredAlert]).
Proof.
  intros _. split; [split; [|apply available_populated] |].
  - intros Hne. destruct (decide ((type f, network f) ∈ populated)); [done|].
    by destruct Hne; apply available_unpopulated.
  - intros H. pose proof (available_unpopulated f H) as Hout.
    split; [done|].
    assert (planEffect f = with_plan "" f) as ->
      by (by rewrite planEffect_cases, Hout).
    split; [done|]. unfold handleSend, JS.falsy. cbn [plan with_plan].
    by rewrite !orb_true_r.
Qed.

(** X7 (witness): the Jio order with the request type [FOO]. *)
Lemma getAvailablePlans_populated_FOO :
  getAvailablePlans (handleChange "type" "FOO" jioOrder) = []
  ∧ plan (planEffect (handleChange "type" "FOO" jioOrder)) = ""
  ∧ handleSend (planEffect (handleChange "type" "FOO" jioOrder))
    = [alert requiredAlert].
Proof.
  assert (ownLookup (handleChange "type" "FOO" jioOrder)) as Hown
    by (split; unfold JS.inherited; not_in_list).
  apply (proj2 (getAvailablePlans_populated _ Hown)).
  unfold populated. intros Hin.
  repeat (apply elem_of_cons in Hin as [Hin | Hin]; [discriminate|]).
  by apply elem_of_nil in Hin.
Defined.

(** ** Editing by hand *)

Lemma planEffect_consistent (f : FormData) : planConsistent (planEffect f).
Proof.
  unfold planConsistent. rewrite planEffect_cases.
  destruct (getAvailablePlans f) as [|p l] eqn:E.
  - right. by rewrite getAvailablePlans_with_plan.
  - destruct (includes (plan f) (p :: l)) eqn:Einc.
    + left. rewrite E. by apply includes_spec.
    + left. rewrite getAvailablePlans_with_plan, E. apply list_elem_of_here.
Qed.

Lemma planEffect_fields (f : FormData) :
  planEffect f = with_plan (plan (planEffect f)) f.
Proof.
  rewrite planEffect_cases.
  destruct (getAvailablePlans f); [done|].
  destruct (includes _ _); [by destruct f | done].
Qed.

(** The render settles the plan whenever the effect runs, and otherwise
    hands the form on. *)
Lemma rerender_cases (old new : FormData) :
  type old = type new ∧ network old = network new ∧ rerender old new = new
  ∨ rerender old new = planEffect new.
Proof.
  unfold rerender.
  destruct (decide (type old = type new ∧ network old = network new))
    as [[Ht Hn] | Hno].
  - left. by rewrite bool_decide_eq_true_2.
  - right. by rewrite bool_decide_eq_false_2.
Qed.

Lemma rerender_handEdited (old new : FormData) :
  type new ∈ typeOptions →
  network new ∈ networkOptions →
  paymentMethod new ∈ paymentOptions →
  (type old = type new → network old = network new → planConsistent new) →
  handEdited (rerender old new).
Proof.
  intros Ht Hn Hp Hplan.
  destruct (rerender_cases old new) as [(Et & En & ->) | ->].
  - split_and!; auto.
  - split; [apply planEffect_consistent|].
    rewrite planEffect_fields. by split_and!.
Qed.

Lemma planConsistent_same (f g : FormData) :
  type f = type g → network f = network g → plan f = plan g →
  planConsistent f → planConsistent g.
Proof.
  unfold planConsistent, getAvailablePlans. by intros -> -> ->.
Qed.

Lemma handEdited_edit (f : FormData) (field value : string) :
  handEdited f → offered f field value = true → handEdited (edit field value f).
Proof.
  intros (Hplan & Ht & Hn & Hp) Hoffered. unfold edit, offered in *.
  destruct (decide (field = "type")) as [-> | Hntype].
  { apply bool_decide_eq_true in Hoffered.
    apply rerender_handEdited; [done.. |].
    change (type (handleChange "type" value f)) with value.
    intros <- _. by apply (planConsistent_same f). }
  destruct (decide (field = "network")) as [-> | Hnnetwork].
  { apply bool_decide_eq_true in Hoffered.
    apply rerender_handEdited; [done.. |].
    change (network (handleChange "network" value f)) with value.
    intros _ <-. by apply (planConsistent_same f). }
  destruct (decide (field = "plan")) as [-> | Hnplan].
  { apply bool_decide_eq_true in Hoffered.
    apply rerender_handEdited; [done.. |]. intros _ _.
    unfold planConsistent, planOptions in *.
    change (getAvailablePlans (handleChange "plan" value f))
      with (getAvailablePlans f).
    change (plan (handleChange "plan" value f)) with value.
    destruct (getAvailablePlans f) as [|p l]; cbn in Hoffered.
    - right. apply list_elem_of_singleton in Hoffered. by subst.
    - by left. }
  destruct (decide (field = "paymentMethod")) as [-> | Hnpayment].
  { apply bool_decide_eq_true in Hoffered.
    apply rerender_handEdited; [done.. |].
    intros _ _. by apply (planConsistent_same f). }
  unfold handleChange.
  apply rerender_handEdited; cbn; rewrite ?decide_False by done; try done.
  intros _ _. apply (planConsistent_same f); cbn;
    by rewrite ?decide_False by done.
Qed.

Lemma reachable_handEdited (f : FormData) : reachable f → handEdited f.
Proof.
  induction 1 as [|f field value _ IH Hoffered|f latitude longitude status _ IH].
  - split; [apply planEffect_consistent|].
    unfold typeOptions, networkOptions, paymentOptions.
    split_and!; cbn; in_list.
  - by apply handEdited_edit.
  - destruct IH as (Hplan & Ht & Hn & Hp).
    apply rerender_handEdited; [done.. |].
    intros _ _. by apply (planConsistent_same f).
Qed.

(** X8: from the first render on, however the form is edited by hand and
    located, the plan is one of the plans available for the request type
    and network on screen, or empty when there is none, and the three
    fixed selects hold one of their options. *)
Theorem reachable_planConsistent (f : FormData) :
  reachable f →
  planConsistent f
  ∧ type f ∈ typeOptions
  ∧ network f ∈ networkOptions
  ∧ paymentMethod f ∈ paymentOptions.
Proof. apply reachable_handEdited. Qed.

(** X8 (witness): Jio chosen on the mounted form. *)
Lemma reachable_planConsistent_jio :
  planConsistent (edit "network" "JIO" mount)
  ∧ type (edit "network" "JIO" mount) ∈ typeOptions
  ∧ network (edit "network" "JIO" mount) ∈ networkOptions
  ∧ paymentMethod (edit "network" "JIO" mount) ∈ paymentOptions.
Proof.
  apply (reachable_planConsistent (edit "network" "JIO" mount)).
  apply (reach_edit mount "network" "JIO" reach_mount). reflexivity.
Defined.

(** X9: in a form edited by hand the plan is empty exactly when the request
    type is REPLACEMENT and the network JIO, the one pair of options
    without plans. *)
Theorem reachable_no_plan_iff (f : FormData) :
  reachable f →
  (plan f = "" ↔ type f = "REPLACEMENT" ∧ network f = "JIO").
Proof.
  intros Hreach.
  destruct (reachable_handEdited f Hreach) as (Hplan & Ht & Hn & _).
  split.
  - intros Hempty.
    assert (getAvailablePlans f = []) as Hnil.
    { destruct Hplan as [Hin | [Hnil _]]; [|done].
      apply getAvailablePlans_listed in Hin. rewrite Hempty in Hin.
      exfalso. revert Hin. unfold listedPrices. not_in_list. }
    assert ((type f, network f) ∉ populated) as Hout.
    { intros Hin. by apply available_populated in Hin. }
    unfold typeOptions in Ht. unfold networkOptions in Hn.
    repeat (apply elem_of_cons in Ht as [Ht | Ht]);
      try (by apply elem_of_nil in Ht);
      repeat (apply elem_of_cons in Hn as [Hn | Hn]);
      try (by apply elem_of_nil in Hn);
      try done;
      exfalso; apply Hout; rewrite Ht, Hn; unfold populated; in_list.
  - intros [Et En].
    pose proof (getAvailablePlans_at f _ _ Et En) as Hnil.
    destruct Hplan as [Hin | [_ Hempty]]; [|done].
    rewrite Hnil in Hin. by apply elem_of_nil in Hin.
Qed.

(** X9 (witness): REPLACEMENT chosen after JIO. *)
Lemma reachable_no_plan_iff_replacement :
  plan (edit "type" "REPLACEMENT" (edit "network" "JIO" mount)) = ""
  ↔ type (edit "type" "REPLACEMENT" (edit "network" "JIO" mount)) = "REPLACEMENT"
    ∧ network (edit "type" "REPLACEMENT" (edit "network" "JIO" mount)) = "JIO".
Proof.
  apply (reachable_no_plan_iff
           (edit "type" "REPLACEMENT" (edit "network" "JIO" mount))).
  apply (reach_edit _ "type" "REPLACEMENT"); [|reflexivity].
  apply (reach_edit mount "network" "JIO" reach_mount). reflexivity.
Defined.

Lemma listed_price_text (p : string) :
  p ∈ listedPrices →
  ∃ n, 0 < n ∧ p = JS.toString n ∧ JS.parseInt p = Some n.
Proof.
  unfold listedPrices. intros Hp.
  apply elem_of_cons in Hp as [-> | Hp]; [by exists 249|].
  apply elem_of_cons in Hp as [-> | Hp]; [by exists 349|].
  apply elem_of_cons in Hp as [-> | Hp]; [by exists 199|].
  apply elem_of_cons in Hp as [-> | Hp]; [by exists 299|].
  apply elem_of_cons in Hp as [-> | Hp]; [by exists 200|].
  by apply elem_of_nil in Hp.
Qed.

(** X10: in a form edited by hand the total is the delivery charge when no
    plan is selected, and otherwise the selected plan, read as the number
    it shows, plus the delivery charge. *)
Theorem reachable_total (f : FormData) :
  reachable f →
  plan f = "" ∧ getTotalPrice f = DELIVERY_CHARGE
  ∨ ∃ n, 0 < n ∧ plan f = JS.toString n
         ∧ getTotalPrice f = n + DELIVERY_CHARGE.
Proof.
  intros Hreach.
  destruct (reachable_handEdited f Hreach) as ([Hin | [_ Hempty]] & _).
  - right. apply getAvailablePlans_listed, listed_price_text in Hin
      as (n & Hpos & Htext & Hread).
    exists n. split_and!; [done.. |].
    by rewrite getTotalPrice_read, Hread.
  - left. split; [done|]. by rewrite getTotalPrice_read, Hempty.
Qed.

(** X10 (witness): Jio chosen on the mounted form. *)
Lemma reachable_total_jio :
  plan (edit "network" "JIO" mount) = ""
  ∧ getTotalPrice (edit "network" "JIO" mount) = DELIVERY_CHARGE
  ∨ ∃ n, 0 < n ∧ plan (edit "network" "JIO" mount) = JS.toString n
         ∧ getTotalPrice (edit "network" "JIO" mount) = n + DELIVERY_CHARGE.
Proof.
  apply (reachable_total (edit "network" "JIO" mount)).
  apply (reach_edit mount "network" "JIO" reach_mount). reflexivity.
Defined.

(** ** More on auto-fill *)

Lemma or_else_idem (a : option string) (b : string) :
  JS.or_else a (JS.or_else a b) = JS.or_else a b.
Proof.
  destruct a as [v|]; [|done]. unfold JS.or_else.
  by destruct (decide (v = "")).
Qed.

Lemma rerender_type (old new : FormData) :
  type (rerender old new) = type new ∧ network (rerender old new) = network new.
Proof.
  destruct (rerender_cases old new) as [(_ & _ & ->) | ->]; [done|].
  by rewrite planEffect_fields.
Qed.

(** A merge whose request type and network are those of the form on screen
    is rendered as it is. *)
Lemma rerender_autoFill_again (extracted : gmap string string)
    (old g : FormData) :
  type g = type (autoFill extracted old) →
  network g = network (autoFill extracted old) →
  rerender g (autoFill extracted g) = autoFill extracted g.
Proof.
  intros Ht Hn. unfold rerender. rewrite bool_decide_eq_true_2; [done|].
  cbn [type network autoFill] in *. rewrite Ht, Hn.
  by rewrite !or_else_idem.
Qed.

(** An auto-fill of the form [g] that brings a reply object, and the render
    after it. *)
Lemma afterAutoFill_again (extracted : gmap string string) (st : AppState)
    (g : FormData) :
  afterAutoFill (Parsed extracted) (with_formData g st)
  = if JS.blank (rawInput st) then g else rerender g (autoFill extracted g).
Proof.
  unfold afterAutoFill, handleAiAutoFill.
  cbn [rawInput formData with_formData].
  destruct (JS.blank (rawInput st)); cbn; [|done].
  unfold rerender. by rewrite bool_decide_eq_true_2.
Qed.

(** X11: the updater of the merge, taken on its own, is idempotent, and it
    changes nothing when each of the eight properties is absent or empty.
    In the app a render comes between two merges of the same reply, and the
    second merge may differ from the first in the plan; from the second on,
    for a request type and network that are not inherited names, merging
    the reply again changes nothing. *)
Theorem autoFill_idempotent (extracted : gmap string string) (st : AppState) :
  let f := formData st in
  let again g := afterAutoFill (Parsed extracted) (with_formData g st) in
  autoFill extracted (autoFill extracted f) = autoFill extracted f
  ∧ ((∀ key field, (key, field) ∈ extractedFields →
        extracted !! key = None ∨ extracted !! key = Some "") →
     autoFill extracted f = f)
  ∧ (ownLookup (autoFill extracted f) →
     again (again (again f)) = again (again f)).
Proof.
  intros f again. split_and!.
  - unfold autoFill. cbn. by rewrite !or_else_idem.
  - intros Hnone. unfold autoFill.
    rewrite (or_else_absent (extracted !! "customerName")),
      (or_else_absent (extracted !! "mobileNumber")),
      (or_else_absent (extracted !! "requestType")),
      (or_else_absent (extracted !! "network")),
      (or_else_absent (extracted !! "planAmount")),
      (or_else_absent (extracted !! "address")),
      (or_else_absent (extracted !! "paymentMethod")),
      (or_else_absent (extracted !! "transactionId"));
      [by destruct f | ..].
    + apply (Hnone _ transactionId). unfold extractedFields. in_list.
    + apply (Hnone _ paymentMethod). unfold extractedFields. in_list.
    + apply (Hnone _ address). unfold extractedFields. in_list.
    + apply (Hnone _ plan). unfold extractedFields. in_list.
    + apply (Hnone _ network). unfold extractedFields. in_list.
    + apply (Hnone _ type). unfold extractedFields. in_list.
    + apply (Hnone _ mobile). unfold extractedFields. in_list.
    + apply (Hnone _ name). unfold extractedFields. in_list.
  - intros _. subst again. cbv beta. rewrite !afterAutoFill_again.
    destruct (JS.blank (rawInput st)); [done|].
    set (f1 := rerender f (autoFill extracted f)).
    destruct (rerender_type f (autoFill extracted f)) as [Ht1 Hn1].
    fold f1 in Ht1, Hn1.
    rewrite (rerender_autoFill_again extracted f f1 Ht1 Hn1).
    rewrite (rerender_autoFill_again extracted f1 (autoFill extracted f1));
      [| done | done].
    unfold autoFill. cbn. by rewrite !or_else_idem.
Qed.

(** X12: the merge reads the eight properties and nothing else: two replies
    that agree on them fill the form alike, whatever else they carry. *)
Theorem autoFill_reads_eight (e1 e2 : gmap string string) (f : FormData) :
  (∀ key field, (key, field) ∈ extractedFields → e1 !! key = e2 !! key) →
  autoFill e1 f = autoFill e2 f.
Proof.
  intros Hagree. unfold autoFill.
  rewrite (Hagree "customerName" name), (Hagree "mobileNumber" mobile),
    (Hagree "requestType" type), (Hagree "network" network),
    (Hagree "planAmount" plan), (Hagree "address" address),
    (Hagree "paymentMethod" paymentMethod),
    (Hagree "transactionId" transactionId);
    unfold extractedFields; first [done | in_list].
Qed.

(** X12 (witness): a reply with a name, alone and beside two properties the
    merge does not know. *)
Lemma autoFill_reads_eight_example :
  autoFill {[ "customerName" := "X" ]} mount
  = autoFill
      {[ "customerName" := "X"; "locationLink" := "L"; "plan" := "1" ]} mount.
Proof.
  apply (autoFill_reads_eight
           {[ "customerName" := "X" ]}
           {[ "customerName" := "X"; "locationLink" := "L"; "plan" := "1" ]}
           mount).
  intros key field Hin. unfold extractedFields in Hin.
  repeat (apply elem_of_cons in Hin as [Hin | Hin];
          [injection Hin as -> _; reflexivity|]).
  by apply elem_of_nil in Hin.
Defined.

(** X13: when the request type and network, before and after the merge, are
    not inherited names,
    auto-fill keeps the catalogue invariant whenever it changes the request
    type or the network, or carries no plan amount; only a plan amount that
    arrives with the request type and network unchanged can leave a plan
    outside the list. *)
Theorem afterAutoFill_consistent (extracted : gmap string string)
    (st : AppState) :
  ownLookup (formData st) →
  ownLookup (autoFill extracted (formData st)) →
  planConsistent (formData st) →
  type (autoFill extracted (formData st)) ≠ type (formData st)
  ∨ network (autoFill extracted (formData st)) ≠ network (formData st)
  ∨ extracted !! "planAmount" = None
  ∨ extracted !! "planAmount" = Some "" →
  planConsistent (afterAutoFill (Parsed extracted) st).
Proof.
  intros _ _ Hplan Hcase. unfold afterAutoFill, handleAiAutoFill.
  destruct (JS.blank (rawInput st)).
  - cbn [fst]. destruct (rerender_cases (formData st) (formData st))
      as [(_ & _ & ->) | ->]; [done | apply planEffect_consistent].
  - cbn [fst formData with_formData with_isAiLoading].
    destruct (rerender_cases (formData st) (autoFill extracted (formData st)))
      as [(Et & En & ->) | ->]; [|apply planEffect_consistent].
    destruct Hcase as [Ht | [Hn | Hamount]]; [by destruct Ht | by destruct Hn |].
    apply (planConsistent_same (formData st)); [done.. | | done].
    cbn [plan autoFill]. symmetry. by apply or_else_absent.
Qed.

(** X13 (witness): a reply that moves the mounted form to Jio and asks for
    a plan Jio does not list. *)
Lemma afterAutoFill_consistent_jio :
  planConsistent
    (afterAutoFill
       (Parsed {[ "network" := "JIO"; "planAmount" := "999" ]}) pasted).
Proof.
  apply (afterAutoFill_consistent
           {[ "network" := "JIO"; "planAmount" := "999" ]} pasted).
  - split; unfold JS.inherited; not_in_list.
  - split; unfold JS.inherited; not_in_list.
  - left. vm_compute. apply list_elem_of_here.
  - right. left. discriminate.
Defined.

Lemma trimStart_ws1 (s : string) :
  all_chars JS.ws1 s = true → JS.trimStart s = "".
Proof.
  induction s as [|c s IH]; [done|]. cbn [all_chars JS.trimStart].
  intros [Hc Hs]%andb_true_iff. rewrite Hc. by apply IH.
Qed.

(** X14: an input made of spaces, tabs and line breaks only starts no
    extraction: whatever the service would answer, the state is left as it
    is and nothing is reported. *)
Theorem handleAiAutoFill_blank (x : extraction) (st : AppState) :
  all_chars JS.ws1 (rawInput st) = true →
  handleAiAutoFill x st = (st, []).
Proof.
  intros Hws. unfold handleAiAutoFill, JS.blank.
  by rewrite (trimStart_ws1 _ Hws).
Qed.

(** X14 (witness): two spaces and a line feed. *)
Lemma handleAiAutoFill_blank_spaces :
  handleAiAutoFill CallThrows (mkAppState mount ("  " +:+ nl) true)
  = (mkAppState mount ("  " +:+ nl) true, []).
Proof.
  apply (handleAiAutoFill_blank CallThrows (mkAppState mount ("  " +:+ nl) true)).
  reflexivity.
Defined.

(** ** Location *)

(** X15: a located position changes the location link alone; the message
    then is the message without location followed by a blank line and the
    location line with the map link, and the total is as before. *)
Theorem handleGetLocation_message (f : FormData) (latitude longitude : string)
    (status : string) :
  let f' := (handleGetLocation (GeoPosition latitude longitude) f status).1.1 in
  f' = with_locationLink (locationLink f') f
  ∧ orderMessage f'
    = orderMessage (with_locationLink "" f)
      +:+ unlines [""; "📍 *Location:* https://www.google.com/maps?q="
                       +:+ latitude +:+ "," +:+ longitude]
  ∧ getTotalPrice f' = getTotalPrice f
  ∧ rerender f f' = f'.
Proof.
  cbn zeta. cbn [handleGetLocation fst]. split_and!.
  - done.
  - unfold orderMessage, JS.falsy. cbn zeta.
    cbn [name mobile type network plan address locationLink paymentMethod
         transactionId with_locationLink].
    change (getTotalPrice (with_locationLink _ f)) with (getTotalPrice f).
    rewrite (bool_decide_eq_true_2 ("" = "")) by done.
    rewrite bool_decide_eq_false_2 by done.
    cbn [negb unlines foldr].
    destruct (bool_decide (paymentMethod f = "UPI")
              && negb (bool_decide (transactionId f = "")));
      rewrite !append_assoc; reflexivity.
  - done.
  - unfold rerender. by rewrite bool_decide_eq_true_2.
Qed.

(** ** Repairing a plan *)

(** X16: for a form whose request type and network are not inherited
    names, whatever plan it holds, one outside the list included: choosing
    another request type or another network in its select brings the plan
    back into the list of the new pair, while an edit of any field other
    than these two and the plan leaves the plan and the list as they are. *)
Theorem edit_repairs_plan (f : FormData) (field value : string) :
  ownLookup f →
  (value ∈ typeOptions → value ≠ type f → planConsistent (edit "type" value f))
  ∧ (value ∈ networkOptions → value ≠ network f →
     planConsistent (edit "network" value f))
  ∧ (field ∉ ["type"; "network"; "plan"] →
     plan (edit field value f) = plan f
     ∧ getAvailablePlans (edit field value f) = getAvailablePlans f).
Proof.
  intros _. split_and!.
  - intros _ Hne. unfold edit.
    destruct (rerender_cases f (handleChange "type" value f))
      as [(Et & _ & _) | ->]; [|apply planEffect_consistent].
    by destruct Hne.
  - intros _ Hne. unfold edit.
    destruct (rerender_cases f (handleChange "network" value f))
      as [(_ & En & _) | ->]; [|apply planEffect_consistent].
    by destruct Hne.
  - intros Hout.
    assert (field ≠ "type" ∧ field ≠ "network" ∧ field ≠ "plan")
      as (H1 & H2 & H3).
    { split_and!; intros ->; apply Hout; in_list. }
    assert (edit field value f = handleChange field value f) as ->.
    { unfold edit, rerender, handleChange. cbn [type network].
      rewrite !decide_False by done. by rewrite bool_decide_eq_true_2. }
    unfold getAvailablePlans, handleChange. cbn [plan type network].
    by rewrite !decide_False by done.
Qed.

(** X16 (witness): the mounted form with the unlisted plan 999, then VI
    chosen. *)
Lemma edit_repairs_plan_999 :
  planConsistent (edit "network" "VI" (with_plan "999" mount)).
Proof.
  assert (ownLookup (with_plan "999" mount)) as Hown
    by (split; unfold JS.inherited; not_in_list).
  apply (edit_repairs_plan (with_plan "999" mount) "network" "VI" Hown).
  - unfold networkOptions. in_list.
  - discriminate.
Defined.

(** The reply that moves the mounted form to Jio and asks for plan 999:
    merged and rendered once the plan is 349, merged again it is 999. *)
Example merge_twice_with_render :
  let reply : gmap string string :=
    {[ "network" := "JIO"; "planAmount" := "999" ]} in
  let once := afterAutoFill (Parsed reply) pasted in
  let twice := afterAutoFill (Parsed reply) (with_formData once pasted) in
  plan once = "349" ∧ plan twice = "999"
  ∧ afterAutoFill (Parsed reply) (with_formData twice pasted) = twice.
Proof. done. Qed.
